(** * data-scaping-tool: the tabular ingestion-and-export pipeline

  A shallow embedding of [data_scraping.py].  The script is glue around
  four libraries (requests, json, pandas, fpdf/docx) and a UI toolkit
  (streamlit).  The functions of the script are translated line by line;
  a library call is either modelled by its documented behaviour (a small
  executable definition in a module of its own) or left open, as a field
  of the class [Libs]. *)

From Stdlib Require Import List String Ascii ZArith QArith Bool Arith Lia.
From Stdlib Require Import DecimalString.
Import ListNotations.
Close Scope Q_scope.
Local Open Scope string_scope.
Local Open Scope list_scope.

(* ================================================================== *)
(** ** Python values, exceptions and results *)
(* ================================================================== *)

Module Py.

(** Exception classes met on the paths of the script.  All of them derive
    from [Exception], so both [except Exception] and a bare [except:]
    catch every inhabitant of [exn]; [except json.JSONDecodeError] only
    catches the class of that name. *)
Inductive exn_class : Type :=
| RequestException      (* requests: connection failure, timeout, ... *)
| HTTPError             (* raised by Response.raise_for_status        *)
| JSONDecodeError       (* json.loads, Response.json                  *)
| UnicodeDecodeError    (* bytes.decode                               *)
| UnicodeEncodeError    (* str.encode                                 *)
| ParserError           (* pandas readers                             *)
| IndexError
| ValueError
| TypeError
| NotImplementedError
| OSError.

Record exn : Type := mk_exn { exn_cls : exn_class; exn_msg : string }.

Definition is_JSONDecodeError (e : exn) : bool :=
  match exn_cls e with JSONDecodeError => true | _ => false end.

Inductive result (A : Type) : Type :=
| Ok (a : A)
| Raise (e : exn).
Arguments Ok {A} a.
Arguments Raise {A} e.

Definition rbind {A B} (r : result A) (k : A -> result B) : result B :=
  match r with Ok a => k a | Raise e => Raise e end.

Fixpoint mapr {A B} (f : A -> result B) (l : list A) : result (list B) :=
  match l with
  | [] => Ok []
  | x :: rest =>
      rbind (f x) (fun y => rbind (mapr f rest) (fun ys => Ok (y :: ys)))
  end.

(** [str.upper], on the ASCII letters. *)
Definition upper_ascii (c : ascii) : ascii :=
  let n := nat_of_ascii c in
  if (97 <=? n)%nat && (n <=? 122)%nat then ascii_of_nat (n - 32) else c.

Fixpoint upper (s : string) : string :=
  match s with
  | EmptyString => EmptyString
  | String c s' => String (upper_ascii c) (upper s')
  end.

(** [str.endswith]: the suffix is the string itself or ends its tail. *)
Fixpoint endswith (s suffix : string) : bool :=
  String.eqb s suffix ||
  match s with
  | EmptyString => false
  | String _ s' => endswith s' suffix
  end.

(** The value [json.loads] returns: [None], [bool], [int], [float], [str],
    [list], [dict].  A [dict] keeps its items in insertion order.  A number
    with a fraction or an exponent is kept as the rational it denotes (the
    rounding to a double is outside the model). *)
#[local] Unset Elimination Schemes.
Inductive json : Type :=
| JNull
| JBool (b : bool)
| JInt (z : Z)
| JReal (q : Q)
| JStr (s : string)
| JList (l : list json)
| JDict (d : list (string * json)).
#[local] Set Elimination Schemes.

(** [d.get(k)] on the items of a dict. *)
Fixpoint assoc (k : string) (d : list (string * json)) : option json :=
  match d with
  | [] => None
  | (k', v) :: d' => if String.eqb k k' then Some v else assoc k d'
  end.

End Py.
Export Py.

Declare Scope result_scope.
Delimit Scope result_scope with result.
Notation "x <- r ;; k" := (rbind r (fun x => k))
  (at level 61, r at next level, right associativity) : result_scope.

(* ================================================================== *)
(** ** pandas: the table and its constructor *)
(* ================================================================== *)

Module Pandas.

(** A cell holds a Python value or is missing ([NaN]).  The values are
    kept as they were given: the types pandas gives to whole columns
    (which can turn the integers of a column with a missing value into
    floats) are not modelled. *)
Inductive cell : Type :=
| NaN
| Val (v : json).

(** A frame: the column labels and the rows, each row one cell per
    column.  (The index of every frame built here is the default
    0..n-1 and is not represented.) *)
Record DataFrame : Type := mk_df {
  columns : list string;
  rows : list (list cell)
}.

(** [pd.DataFrame()] *)
Definition DataFrame_empty : DataFrame := mk_df [] [].

(** [df.empty]: true when any axis has length 0. *)
Definition empty (d : DataFrame) : bool :=
  (List.length (columns d) =? 0)%nat || (List.length (rows d) =? 0)%nat.


Definition well_formed (d : DataFrame) : Prop :=
  NoDup (columns d) /\
  Forall (fun r => List.length r = List.length (columns d)) (rows d).

Definition mem (k : string) (l : list string) : bool :=
  existsb (String.eqb k) l.

(** Columns of a frame built from a list of dicts: the keys, in the order
    in which they are first met. *)
Definition add_key (cols : list string) (k : string) : list string :=
  if mem k cols then cols else cols ++ [k].

Definition add_keys (cols : list string) (r : list (string * json))
  : list string :=
  fold_left add_key (map fst r) cols.

Definition union_keys (recs : list (list (string * json))) : list string :=
  fold_left add_keys recs [].

(** The row of one dict: its value under each column, [NaN] where the
    dict has no such key. *)
Definition cell_of (r : list (string * json)) (c : string) : cell :=
  match assoc c r with
  | Some v => Val v
  | None => NaN
  end.

Definition row_of_record (cols : list string) (r : list (string * json))
  : list cell :=
  map (cell_of r) cols.

Definition from_records (recs : list (list (string * json))) : DataFrame :=
  let cols := union_keys recs in
  mk_df cols (map (row_of_record cols) recs).

(** The items of a list when every item is a dict. *)
Fixpoint as_records (data : list json)
  : option (list (list (string * json))) :=
  match data with
  | [] => Some []
  | JDict d :: rest =>
      match as_records rest with
      | Some rs => Some (d :: rs)
      | None => None
      end
  | _ :: _ => None
  end.

End Pandas.
Export Pandas.

(* ================================================================== *)
(** ** Delimited text: the writer behind [DataFrame.to_csv] and the
       tokenizer behind [pd.read_csv], with the options pandas passes by
       default (separator [,], quote character, doubled quotes inside a
       quoted field, line terminator LF on writing, blank lines skipped on
       reading) *)
(* ================================================================== *)

Module Csv.

Definition comma : ascii := ","%char.
Definition dquote : ascii := ascii_of_nat 34.
Definition LF : ascii := ascii_of_nat 10.
Definition CR : ascii := ascii_of_nat 13.
Definition space : ascii := " "%char.
Definition tab : ascii := ascii_of_nat 9.

Definition str1 (c : ascii) : string := String c EmptyString.

(** *** Writing ([csv.writer], QUOTE_MINIMAL) *)

(** A field is quoted when it holds the separator, the quote character or
    a character of the line terminator. *)
Definition special (c : ascii) : bool :=
  Ascii.eqb c comma || Ascii.eqb c dquote || Ascii.eqb c LF.

Fixpoint needs_quotes (s : string) : bool :=
  match s with
  | EmptyString => false
  | String c s' => special c || needs_quotes s'
  end.

Fixpoint double_quotes (s : string) : string :=
  match s with
  | EmptyString => EmptyString
  | String c s' =>
      if Ascii.eqb c dquote
      then String dquote (String dquote (double_quotes s'))
      else String c (double_quotes s')
  end.

Definition write_field (f : string) : string :=
  if needs_quotes f
  then String dquote (double_quotes f ++ str1 dquote)%string
  else f.

Fixpoint join_fields (fs : list string) : string :=
  match fs with
  | [] => EmptyString
  | [f] => write_field f
  | f :: fs' => (write_field f ++ String comma (join_fields fs'))%string
  end.

(** One record.  A record of a single empty field is written as a pair of
    quotes, so that it is not an empty line. *)
Definition write_row (fs : list string) : string :=
  match fs with
  | [EmptyString] => String dquote (String dquote (str1 LF))
  | _ => (join_fields fs ++ str1 LF)%string
  end.

Fixpoint write_rows (rs : list (list string)) : string :=
  match rs with
  | [] => EmptyString
  | r :: rs' => (write_row r ++ write_rows rs')%string
  end.

(** *** Reading (the states of pandas' tokenizer) *)

Inductive pstate : Type :=
| START_RECORD
| WHITESPACE_LINE
| START_FIELD
| IN_FIELD
| IN_QUOTED_FIELD
| QUOTE_IN_QUOTED_FIELD
| EAT_CRNL
| EAT_CRNL_NOP.

Record parser : Type := mk_parser {
  state : pstate;
  field : string;                 (* characters of the field being read *)
  line : list string;             (* fields of the record being read    *)
  lines : list (list string)      (* records read so far                *)
}.

Definition parser_init : parser := mk_parser START_RECORD EmptyString [] [].

Definition goto (s : pstate) (p : parser) : parser :=
  mk_parser s (field p) (line p) (lines p).

Definition push_char (c : ascii) (p : parser) : parser :=
  mk_parser (state p) (field p ++ str1 c)%string (line p) (lines p).

Definition drop_field (p : parser) : parser :=
  mk_parser (state p) EmptyString (line p) (lines p).

Definition end_field (p : parser) : parser :=
  mk_parser (state p) EmptyString (line p ++ [field p]) (lines p).

Definition end_line (p : parser) : parser :=
  mk_parser START_RECORD EmptyString [] (lines p ++ [line p]).

Definition is_whitespace (c : ascii) : bool :=
  Ascii.eqb c space || Ascii.eqb c tab.

Definition step_in_field (p : parser) (c : ascii) : parser :=
  if Ascii.eqb c LF then end_line (end_field p)
  else if Ascii.eqb c CR then goto EAT_CRNL (end_field p)
  else if Ascii.eqb c comma then goto START_FIELD (end_field p)
  else goto IN_FIELD (push_char c p).

Definition step_start_field (p : parser) (c : ascii) : parser :=
  if Ascii.eqb c LF then end_line (end_field p)
  else if Ascii.eqb c CR then goto EAT_CRNL (end_field p)
  else if Ascii.eqb c dquote then goto IN_QUOTED_FIELD p
  else if Ascii.eqb c comma then goto START_FIELD (end_field p)
  else goto IN_FIELD (push_char c p).

(** At the start of a record an empty line is skipped, and a line that
    begins with a blank is read on in WHITESPACE_LINE. *)
Definition step_start_record (p : parser) (c : ascii) : parser :=
  if Ascii.eqb c LF then p
  else if Ascii.eqb c CR then goto EAT_CRNL_NOP p
  else if is_whitespace c then goto WHITESPACE_LINE (push_char c p)
  else step_start_field p c.

(** WHITESPACE_LINE: a line of blanks only is skipped.  At any other
    character the C code rewinds to the start of the line and reads it
    again from START_FIELD; the blanks are then the beginning of an
    unquoted field, which is the state [field] already holds here. *)
Definition step (p : parser) (c : ascii) : parser :=
  match state p with
  | START_RECORD => step_start_record p c
  | WHITESPACE_LINE =>
      if Ascii.eqb c LF then goto START_RECORD (drop_field p)
      else if Ascii.eqb c CR then goto EAT_CRNL_NOP (drop_field p)
      else if is_whitespace c then push_char c p
      else step_in_field p c
  | START_FIELD => step_start_field p c
  | IN_FIELD => step_in_field p c
  | IN_QUOTED_FIELD =>
      if Ascii.eqb c dquote then goto QUOTE_IN_QUOTED_FIELD p
      else push_char c p
  | QUOTE_IN_QUOTED_FIELD =>
      if Ascii.eqb c dquote then goto IN_QUOTED_FIELD (push_char c p)
      else if Ascii.eqb c comma then goto START_FIELD (end_field p)
      else if Ascii.eqb c LF then end_line (end_field p)
      else if Ascii.eqb c CR then goto EAT_CRNL (end_field p)
      else goto IN_FIELD (push_char c p)
  | EAT_CRNL =>
      if Ascii.eqb c LF then end_line p
      else if Ascii.eqb c comma then goto START_FIELD (end_field (end_line p))
      else step_start_record (end_line p) c
  | EAT_CRNL_NOP =>
      if Ascii.eqb c LF || Ascii.eqb c comma then goto START_RECORD p
      else step_start_record (goto START_RECORD p) c
  end.

Fixpoint run (p : parser) (s : string) : parser :=
  match s with
  | EmptyString => p
  | String c s' => run (step p c) s'
  end.

(** End of input. *)
Definition finish (p : parser) : result (list (list string)) :=
  match state p with
  | START_RECORD | WHITESPACE_LINE | EAT_CRNL_NOP => Ok (lines p)
  | IN_QUOTED_FIELD =>
      Raise (mk_exn ParserError "EOF inside string")
  | START_FIELD | IN_FIELD | QUOTE_IN_QUOTED_FIELD =>
      Ok (lines (end_line (end_field p)))
  | EAT_CRNL => Ok (lines (end_line p))
  end.

Definition tokenize (s : string) : result (list (list string)) :=
  finish (run parser_init s).

(** *** From records to a frame *)

Definition decimal (n : nat) : string :=
  NilEmpty.string_of_uint (Nat.to_uint n).

(** A header field that is empty is named after its position. *)
Fixpoint unnamed (i : nat) (names : list string) : list string :=
  match names with
  | [] => []
  | n :: rest =>
      (match n with
       | EmptyString => ("Unnamed: " ++ decimal i)%string
       | _ => n
       end) :: unnamed (S i) rest
  end.

Fixpoint count_of (counts : list (string * nat)) (k : string) : nat :=
  match counts with
  | [] => 0
  | (k', n) :: rest => if String.eqb k k' then n else count_of rest k
  end.

(** Repeated names get a numbered suffix:
      cur_count = counts[col]
      while cur_count > 0:
          counts[col] = cur_count + 1
          col = f"{col}.{cur_count}"
          cur_count = counts[col]
    Every turn of the loop meets a longer name that was counted before, so
    it ends within as many turns as there are counted names. *)
Fixpoint dedup_loop (fuel : nat) (counts : list (string * nat)) (col : string)
  : string * list (string * nat) :=
  match fuel with
  | O => (col, counts)
  | S fuel' =>
      let cur_count := count_of counts col in
      if (cur_count =? 0)%nat then (col, counts)
      else dedup_loop fuel' ((col, S cur_count) :: counts)
                      (col ++ "." ++ decimal cur_count)%string
  end.

Fixpoint dedup_names (counts : list (string * nat)) (names : list string)
  : list string :=
  match names with
  | [] => []
  | col :: rest =>
      let '(col', counts') := dedup_loop (S (List.length counts)) counts col in
      col' :: dedup_names ((col', S (count_of counts' col')) :: counts') rest
  end.

Definition header_names (fields : list string) : list string :=
  dedup_names [] (unnamed 0 fields).

(** The texts read as a missing value (pandas' default [na_values]). *)
Definition na_values : list string :=
  [ EmptyString; "#N/A"; "#N/A N/A"; "#NA"; "-1.#IND"; "-1.#QNAN"; "-NaN"; "-nan";
    "1.#IND"; "1.#QNAN"; "<NA>"; "N/A"; "NA"; "NULL"; "NaN"; "None"; "n/a";
    "nan"; "null" ].

Definition is_na (s : string) : bool := existsb (String.eqb s) na_values.

(** A cell as read, before the types of the columns are inferred. *)
Definition read_cell (s : string) : cell :=
  if is_na s then NaN else Val (JStr s).

(** A record shorter than the header is filled up with missing values.
    A longer one is refused here (pandas refuses it too, unless it takes
    the extra leading fields for an index; nothing below depends on it). *)
Definition fit (n : nat) (fields : list string) : result (list cell) :=
  if (n <? List.length fields)%nat
  then Raise (mk_exn ParserError "Error tokenizing data")
  else Ok (map read_cell fields ++ repeat NaN (n - List.length fields)).

(** [pd.read_csv] on decoded text, up to the inference of column types. *)
Definition read_csv_text (text : string) : result DataFrame :=
  (records <- tokenize text ;;
   match records with
   | [] => Raise (mk_exn ParserError "No columns to parse from file")
   | header :: data =>
       rows <- mapr (fit (List.length header)) data ;;
       Ok (mk_df (header_names header) rows)
   end)%result.

(** *** What the text of a record must avoid for the tokenizer to read
        the same record back *)

Fixpoint has (P : ascii -> bool) (s : string) : bool :=
  match s with
  | EmptyString => false
  | String c s' => P c || has P s'
  end.





(** *** The states of the reader inside the text of a field *)

(** Characters that neither end a field nor open a quoted one. *)
Definition plain (c : ascii) : bool :=
  negb (Ascii.eqb c comma || Ascii.eqb c dquote || Ascii.eqb c LF
        || Ascii.eqb c CR).




End Csv.

(* ================================================================== *)
(** ** fpdf: the calls of the script on an [FPDF] object *)
(* ================================================================== *)

Module Fpdf.

(** What [cell] and [ln] put on the page, in call order. *)
Inductive op : Type :=
| Cell (w h : Q) (txt : string) (border : Z) (ln : bool) (align : string)
| Ln (h : Q).

Record FPDF : Type := mk_fpdf {
  k : Q;               (* points per user unit           *)
  w : Q;               (* page width, in user units      *)
  font_family : string;
  font_size_pt : Q;
  font_size : Q;       (* font size, in user units       *)
  page : nat;
  ops : list op
}.

(** [FPDF()]: portrait, millimetres, A4 (595.28pt wide), 12pt. *)
Definition new : FPDF :=
  let k := (72 / (254 # 10))%Q in
  mk_fpdf k ((59528 # 100) / k)%Q EmptyString 12%Q (12 / k)%Q 0 [].

Definition add_page (pdf : FPDF) : FPDF :=
  mk_fpdf (k pdf) (w pdf) (font_family pdf) (font_size_pt pdf)
          (font_size pdf) (S (page pdf)) (ops pdf).

Definition set_font (family : string) (size : Q) (pdf : FPDF) : FPDF :=
  mk_fpdf (k pdf) (w pdf) family size (size / k pdf)%Q (page pdf) (ops pdf).

Definition emit (o : op) (pdf : FPDF) : FPDF :=
  mk_fpdf (k pdf) (w pdf) (font_family pdf) (font_size_pt pdf)
          (font_size pdf) (page pdf) (ops pdf ++ [o]).

Definition cell (w h : Q) (txt : string) (border : Z) (ln : bool)
  (align : string) (pdf : FPDF) : FPDF :=
  emit (Cell w h txt border ln align) pdf.

Definition ln (h : Q) (pdf : FPDF) : FPDF := emit (Ln h) pdf.

End Fpdf.

(* ================================================================== *)
(** ** python-docx: the document the script builds *)
(* ================================================================== *)

Module Docx.

Record Document : Type := mk_doc {
  headings : list (string * nat);
  table : list (list string)        (* rows of cell texts *)
}.

Definition new : Document := mk_doc [] [].

Definition add_heading (text : string) (level : nat) (d : Document)
  : Document :=
  mk_doc (headings d ++ [(text, level)]) (table d).

(** [cells[i].text = s]; an index past the end raises IndexError. *)
Fixpoint set_text (i : nat) (s : string) (cells : list string)
  : result (list string) :=
  match cells, i with
  | [], _ => Raise (mk_exn IndexError "tuple index out of range")
  | _ :: rest, O => Ok (s :: rest)
  | c :: rest, S i' =>
      (rest' <- set_text i' s rest ;; Ok (c :: rest'))%result
  end.

(** [for i, x in enumerate(xs): cells[i].text = x], from index [i]. *)
Fixpoint fill (i : nat) (xs : list string) (cells : list string)
  : result (list string) :=
  match xs with
  | [] => Ok cells
  | x :: xs' =>
      (cells' <- set_text i x cells ;; fill (S i) xs' cells')%result
  end.

End Docx.

(* ================================================================== *)
(** ** streamlit: what a run of the script shows, and the session *)
(* ================================================================== *)

Module St.

Inductive event : Type :=
| Title (s : string)
| Tabs (labels : list string)
| Header (s : string)
| Subheader (s : string)
| Dataframe (d : DataFrame)
| Error (msg : string)
| Warning (msg : string)
| Columns (n : nat)
| DownloadButton (label data file_name mime : string).

(** The state a run of the script works on: the global [df], the page
    built so far, and the read position of the uploaded file. *)
Record session : Type := mk_session {
  df : DataFrame;
  ui : list event;
  fpos : nat
}.

Definition M (A : Type) : Type := session -> result A * session.

Definition ret {A} (a : A) : M A := fun s => (Ok a, s).

Definition bind {A B} (m : M A) (k : A -> M B) : M B :=
  fun s =>
    match m s with
    | (Ok a, s') => k a s'
    | (Raise e, s') => (Raise e, s')
    end.

Definition lift {A} (r : result A) : M A := fun s => (r, s).

(** [try: body  except <class>: handler], for the exceptions that
    [catches] accepts; the others go on. *)
Definition try_except {A} (catches : exn -> bool) (body : M A)
  (handler : exn -> M A) : M A :=
  fun s =>
    match body s with
    | (Ok a, s') => (Ok a, s')
    | (Raise e, s') => if catches e then handler e s' else (Raise e, s')
    end.

(** [except Exception] and the bare [except:]. *)
Definition any_Exception (e : exn) : bool := true.

Definition show (e : event) : M unit :=
  fun s => (Ok tt, mk_session (df s) (ui s ++ [e]) (fpos s)).

Definition get_df : M DataFrame := fun s => (Ok (df s), s).

Definition set_df (d : DataFrame) : M unit :=
  fun s => (Ok tt, mk_session d (ui s) (fpos s)).

Definition error (msg : string) : M unit := show (Error msg).
Definition warning (msg : string) : M unit := show (Warning msg).
Definition dataframe (d : DataFrame) : M unit := show (Dataframe d).

(** The export controls among what is shown. *)
Definition is_download (e : event) : bool :=
  match e with
  | DownloadButton _ _ _ _ => true
  | _ => false
  end.

Definition no_download (s : session) : Prop :=
  Forall (fun e => is_download e = false) (ui s).

(** A computation that puts no export control on a page without one. *)
Definition download_free {A} (m : M A) : Prop :=
  forall s r s', m s = (r, s') -> no_download s -> no_download s'.

End St.
Export St.

Declare Scope M_scope.
Delimit Scope M_scope with M.
Notation "x <- m ;; k" := (bind m (fun x => k))
  (at level 61, m at next level, right associativity) : M_scope.
Notation "m ;; k" := (bind m (fun _ => k))
  (at level 61, right associativity) : M_scope.

(* ================================================================== *)
(** ** The library calls that are left open *)
(* ================================================================== *)

Record response : Type := mk_response {
  status_code : Z;
  text : string
}.

Record UploadedFile : Type := mk_upload {
  name : string;
  data : string                  (* the bytes of the file *)
}.

(** The network, the file system, the codecs, and the parts of json,
    pandas, docx and fpdf whose results the script only passes on. *)
Class Libs : Type := {
  (* requests.get(url, headers=...), requests.post(url, headers=..., json=...) *)
  requests_get : string -> option json -> result response;
  requests_post : string -> option json -> option json -> result response;
  (* json.loads *)
  json_loads : string -> result json;
  (* str() of a float, a list or a dict *)
  str_other : json -> string;
  (* str.encode / bytes.decode *)
  encode_utf8 : string -> result string;
  decode_utf8 : string -> result string;
  encode_latin1 : string -> result string;
  (* pd.DataFrame(data) for a list that holds something else than dicts *)
  DataFrame_of_list : list json -> result DataFrame;
  (* pd.json_normalize *)
  json_normalize : json -> result DataFrame;
  (* pd.read_excel on the bytes of a file *)
  read_excel : string -> result DataFrame;
  (* the bytes df.to_excel, Document.save and FPDF.output produce, for the
     one call a run of the script makes (these writers are free to stamp
     the time of the call into the file) *)
  to_excel : DataFrame -> result string;
  docx_save : Docx.Document -> result string;
  pdf_output : Fpdf.FPDF -> result string;
  (* open(path).read() *)
  open_read : string -> result string
}.

(** What the user has entered in the widgets when the script runs. *)
Record inputs : Type := mk_inputs {
  url : string;
  method : string;
  headers_input : string;
  json_input : string;
  fetch_clicked : bool;
  uploaded_file : option UploadedFile;
  json_path : string
}.

Local Open Scope result_scope.

Section LibraryCalls.

Context {L : Libs}.

(** [Response.raise_for_status]: HTTPError for a 4xx or 5xx status. *)
Definition raise_for_status (r : response) : result unit :=
  if ((400 <=? status_code r) && (status_code r <? 600))%Z
  then Raise (mk_exn HTTPError
                (NilZero.string_of_int (Z.to_int (status_code r)) ++ " Error")%string)
  else Ok tt.

(** [Response.json] *)
Definition response_json (r : response) : result json :=
  json_loads (text r).

(** [pd.DataFrame(data)] for a list [data] *)
Definition DataFrame_list (data : list json) : result DataFrame :=
  match as_records data with
  | Some recs => Ok (from_records recs)
  | None => DataFrame_of_list data
  end.

(** [str(x)] *)
Definition py_str (v : json) : string :=
  match v with
  | JNull => "None"
  | JBool true => "True"
  | JBool false => "False"
  | JInt z => NilZero.string_of_int (Z.to_int z)
  | JStr s => s
  | _ => str_other v
  end.

Definition str_cell (c : cell) : string :=
  match c with
  | NaN => "nan"
  | Val v => py_str v
  end.

(** [df.iterrows()] *)
Definition iterrows (d : DataFrame) : list (list cell) := rows d.

(** The text [to_csv] writes for a cell: nothing for a missing value. *)
Definition csv_text (c : cell) : string :=
  match c with
  | NaN => EmptyString
  | Val JNull => EmptyString
  | Val v => py_str v
  end.

(** [df.to_csv(index=False)] *)
Definition to_csv (d : DataFrame) : string :=
  Csv.write_rows (columns d :: map (map csv_text) (rows d)).

(** [pd.read_csv] on the bytes of a file.  The inference of column types
    that follows in pandas (text that looks like a number becomes a
    number) is not modelled: a cell carries the text of its field. *)
Definition read_csv (bytes : string) : result DataFrame :=
  text <- decode_utf8 bytes ;;
  Csv.read_csv_text text.

(** [str.strip] and [str.split("\n")] *)
Definition py_isspace (c : ascii) : bool :=
  let n := nat_of_ascii c in
  ((9 <=? n) && (n <=? 13) || (28 <=? n) && (n <=? 32))%nat.

Fixpoint lstrip (s : string) : string :=
  match s with
  | EmptyString => EmptyString
  | String c s' => if py_isspace c then lstrip s' else s
  end.

Fixpoint rstrip (s : string) : string :=
  match s with
  | EmptyString => EmptyString
  | String c s' =>
      match rstrip s' with
      | EmptyString => if py_isspace c then EmptyString else String c EmptyString
      | r => String c r
      end
  end.

Definition strip (s : string) : string := rstrip (lstrip s).

Fixpoint split_lines_aux (cur : string) (s : string) : list string :=
  match s with
  | EmptyString => [cur]
  | String c s' =>
      if Ascii.eqb c Csv.LF then cur :: split_lines_aux EmptyString s'
      else split_lines_aux (cur ++ String c EmptyString)%string s'
  end.

Definition split_lines (s : string) : list string :=
  split_lines_aux EmptyString s.

Definition nonempty (s : string) : bool :=
  match s with EmptyString => false | _ => true end.

(** The lines pandas keeps of a line-delimited file: stripped, not empty. *)
Definition json_lines (text : string) : list string :=
  filter nonempty (map strip (split_lines text)).

(** [pd.read_json(..., lines=True)]: "read the file as a json object per
    line"; the values of the lines make the frame, in their order.
    (pandas joins the kept lines into one array text and decodes that;
    the conversion of column types that follows is not modelled.) *)
Definition read_json_lines (bytes : string) : result DataFrame :=
  text <- decode_utf8 bytes ;;
  values <- mapr json_loads (json_lines text) ;;
  DataFrame_list values.

End LibraryCalls.

(* ================================================================== *)
(** ** data_scraping.py *)
(* ================================================================== *)

Section Script.

Context {L : Libs}.

(* ------------------------------------------------------------------ *)
(** *** Helper functions *)

(** The request [fetch_api_data] sends. *)
Definition send_request (url method : string)
  (headers json_body : option json) : result response :=
  if String.eqb (upper method) "GET"
  then requests_get url headers
  else requests_post url headers json_body.

(** The body of the [try] of [fetch_api_data]. *)
Definition fetch_api_data_try (url method : string)
  (headers json_body : option json) : result DataFrame :=
  response <- send_request url method headers json_body ;;
  _ <- raise_for_status response ;;
  data <- response_json response ;;
  match data with
  | JList l => DataFrame_list l
  | JDict _ => DataFrame_list [data]
  | _ => Ok DataFrame_empty
  end.

Definition fetch_api_data (url method : string)
  (headers json_body : option json) : M DataFrame :=
  try_except any_Exception
    (lift (fetch_api_data_try url method headers json_body))
    (fun e =>
       (St.error ("Error fetching API: " ++ exn_msg e) ;;
        ret DataFrame_empty)%M).

Definition export_to_csv (d : DataFrame) : result string :=
  encode_utf8 (to_csv d).

Definition export_to_excel (d : DataFrame) : result string :=
  to_excel d.

Definition export_to_word (d : DataFrame) : result string :=
  let doc := Docx.add_heading "Data Export" 0 Docx.new in
  let blank := repeat EmptyString (List.length (columns d)) in
  hdr_cells <- Docx.fill 0 (columns d) blank ;;
  body <- mapr (fun row => Docx.fill 0 (map str_cell row) blank)
               (iterrows d) ;;
  docx_save (Docx.mk_doc (Docx.headings doc) (hdr_cells :: body)).

(** The page [export_to_pdf] has drawn when it calls [output]. *)
Definition pdf_col_width (pdf : Fpdf.FPDF) (d : DataFrame) : Q :=
  (Fpdf.w pdf / inject_Z (Z.of_nat (List.length (columns d)) + 1))%Q.

Definition pdf_row_height (pdf : Fpdf.FPDF) : Q :=
  (Fpdf.font_size pdf * (15 # 10))%Q.

Definition pdf_header_row (col_width row_height : Q) (cols : list string)
  (pdf : Fpdf.FPDF) : Fpdf.FPDF :=
  fold_left
    (fun pdf col => Fpdf.cell col_width row_height col 1 false EmptyString pdf)
    cols pdf.

Definition pdf_data_row (col_width row_height : Q) (pdf : Fpdf.FPDF)
  (row : list cell) : Fpdf.FPDF :=
  Fpdf.ln row_height
    (fold_left
       (fun pdf item =>
          Fpdf.cell col_width row_height (str_cell item) 1 false EmptyString pdf)
       row pdf).

Definition pdf_page (d : DataFrame) : Fpdf.FPDF :=
  let pdf := Fpdf.new in
  let pdf := Fpdf.add_page pdf in
  let pdf := Fpdf.set_font "Arial" 12 pdf in
  let pdf := Fpdf.cell 200 10 "Data Export" 0 true "C" pdf in
  let pdf := Fpdf.ln 10 pdf in
  let col_width := pdf_col_width pdf d in
  let row_height := pdf_row_height pdf in
  let pdf := pdf_header_row col_width row_height (columns d) pdf in
  let pdf := Fpdf.ln row_height pdf in
  fold_left (pdf_data_row col_width row_height) (iterrows d) pdf.

Definition export_to_pdf (d : DataFrame) : result string :=
  s <- pdf_output (pdf_page d) ;;
  encode_latin1 s.

(* ------------------------------------------------------------------ *)
(** *** The page *)

(** [try: headers = json.loads(headers_input)  except: headers = None] *)
Definition headers_of_input (headers_input : string) : M (option json) :=
  try_except any_Exception
    (v <- lift (json_loads headers_input) ;; ret (Some v))%M
    (fun _ => ret None).

(** [try: json_body = json.loads(json_input)  except: json_body = None] *)
Definition json_body_of_input (json_input : string) : M (option json) :=
  try_except any_Exception
    (v <- lift (json_loads json_input) ;; ret (Some v))%M
    (fun _ => ret None).

Definition tab1 (i : inputs) : M unit :=
  (show (Header "Fetch Data from API") ;;
   show (Subheader "Headers (Optional)") ;;
   headers <- headers_of_input (headers_input i) ;;
   show (Subheader "JSON Body (for POST)") ;;
   json_body <- json_body_of_input (json_input i) ;;
   if fetch_clicked i then
     if nonempty (url i) then
       d <- fetch_api_data (url i) (method i) headers json_body ;;
       set_df d ;;
       St.dataframe d
     else St.warning "Please enter an API URL."
   else ret tt)%M.

(** [uploaded_file.read()] and [uploaded_file.seek(n)] *)
Definition file_read (f : UploadedFile) : M string :=
  fun s =>
    (Ok (substring (fpos s) (String.length (data f) - fpos s) (data f)),
     mk_session (df s) (ui s) (Nat.max (fpos s) (String.length (data f)))).

Definition file_seek (n : nat) : M unit :=
  fun s => (Ok tt, mk_session (df s) (ui s) n).

(** The body of the [try] of the upload branch. *)
Definition upload_try (f : UploadedFile) : M unit :=
  ((if endswith (name f) ".csv" then
      bytes <- file_read f ;;
      d <- lift (read_csv bytes) ;;
      set_df d
    else if endswith (name f) ".xlsx" then
      bytes <- file_read f ;;
      d <- lift (read_excel bytes) ;;
      set_df d
    else if endswith (name f) ".json" then
      bytes <- file_read f ;;
      json_str <- lift (decode_utf8 bytes) ;;
      try_except is_JSONDecodeError
        (v <- lift (json_loads json_str) ;;
         d <- lift (json_normalize v) ;;
         set_df d)
        (fun _ =>
           file_seek 0 ;;
           bytes <- file_read f ;;
           d <- lift (read_json_lines bytes) ;;
           set_df d)
    else ret tt) ;;
   d <- get_df ;;
   St.dataframe d)%M.

Definition upload (f : UploadedFile) : M unit :=
  try_except any_Exception (upload_try f)
    (fun e => St.error ("Error reading uploaded file: " ++ exn_msg e)).

Definition local_json_try (path : string) : M unit :=
  (try_except is_JSONDecodeError
     (bytes <- lift (open_read path) ;;
      json_str <- lift (decode_utf8 bytes) ;;
      v <- lift (json_loads json_str) ;;
      d <- lift (json_normalize v) ;;
      set_df d)
     (fun _ =>
        bytes <- lift (open_read path) ;;
        d <- lift (read_json_lines bytes) ;;
        set_df d) ;;
   d <- get_df ;;
   St.dataframe d)%M.

Definition local_json (path : string) : M unit :=
  try_except any_Exception (local_json_try path)
    (fun e => St.error ("Error reading JSON file: " ++ exn_msg e)).

Definition tab2 (i : inputs) : M unit :=
  (show (Header "Upload CSV, Excel or JSON") ;;
   match uploaded_file i with
   | Some f => upload f
   | None => if nonempty (json_path i) then local_json (json_path i)
             else ret tt
   end)%M.

(** The export section: [if not df.empty: ...] *)
Definition export_section : M unit :=
  (d <- get_df ;;
   if negb (empty d) then
     show (Header "Export Data") ;;
     show (Columns 4) ;;
     csv_data <- lift (export_to_csv d) ;;
     show (DownloadButton "Download CSV" csv_data "data.csv" "text/csv") ;;
     excel_data <- lift (export_to_excel d) ;;
     show (DownloadButton "Download Excel" excel_data "data.xlsx"
             "application/vnd.ms-excel") ;;
     word_data <- lift (export_to_word d) ;;
     show (DownloadButton "Download Word" word_data "data.docx"
             "application/vnd.openxmlformats-officedocument.wordprocessingml.document") ;;
     pdf_data <- lift (export_to_pdf d) ;;
     show (DownloadButton "Download PDF" pdf_data "data.pdf"
             "application/pdf")
   else ret tt)%M.

(** One run of the script, from the top. *)
Definition script (i : inputs) : M unit :=
  (show (Title "📊 Data Scraping Tool") ;;
   show (Tabs ["API Fetch"; "Upload File"]) ;;
   set_df DataFrame_empty ;;
   tab1 i ;;
   tab2 i ;;
   export_section)%M.

Definition session_init : session := mk_session DataFrame_empty [] 0.

End Script.

(* ================================================================== *)
(** ** A small instance of the open library calls, to run the script on
       concrete inputs: a decoder for JSON texts without escapes and
       fractions, a canned network, identity codecs *)
(* ================================================================== *)

Module Ref.

(** ['] for the quote character, to write JSON texts. *)
Fixpoint dq (s : string) : string :=
  match s with
  | EmptyString => EmptyString
  | String c s' =>
      String (if Ascii.eqb c "'"%char then Csv.dquote else c) (dq s')
  end.

Definition is_ws (c : ascii) : bool :=
  Ascii.eqb c " "%char || Ascii.eqb c Csv.tab || Ascii.eqb c Csv.LF
  || Ascii.eqb c Csv.CR.

Fixpoint skip_ws (s : string) : string :=
  match s with
  | String c s' => if is_ws c then skip_ws s' else s
  | EmptyString => EmptyString
  end.

Definition digit (c : ascii) : option Z :=
  let n := nat_of_ascii c in
  if ((48 <=? n) && (n <=? 57))%nat then Some (Z.of_nat (n - 48)) else None.

Fixpoint digits (acc : Z) (s : string) : Z * string :=
  match s with
  | String c s' =>
      match digit c with
      | Some d => digits (10 * acc + d) s'
      | None => (acc, s)
      end
  | EmptyString => (acc, s)
  end.

Definition number (s : string) : option (Z * string) :=
  match s with
  | String c s' =>
      match digit c with
      | Some d => Some (digits d s')
      | None => None
      end
  | EmptyString => None
  end.

(** The characters of a string up to the closing quote. *)
Fixpoint chars (acc : string) (s : string) : option (string * string) :=
  match s with
  | EmptyString => None
  | String c s' =>
      if Ascii.eqb c Csv.dquote then Some (acc, s')
      else if Ascii.eqb c "\"%char then None
      else chars (acc ++ String c EmptyString)%string s'
  end.

Fixpoint value (fuel : nat) (s : string) : option (json * string) :=
  match fuel with
  | O => None
  | S fuel' =>
      match skip_ws s with
      | String "n" (String "u" (String "l" (String "l" r))) => Some (JNull, r)
      | String "t" (String "r" (String "u" (String "e" r))) =>
          Some (JBool true, r)
      | String "f" (String "a" (String "l" (String "s" (String "e" r)))) =>
          Some (JBool false, r)
      | String "-" r =>
          match number r with
          | Some (z, r') => Some (JInt (- z), r')
          | None => None
          end
      | String "[" r =>
          match skip_ws r with
          | String "]" r' => Some (JList [], r')
          | _ => items fuel' [] r
          end
      | String "{" r =>
          match skip_ws r with
          | String "}" r' => Some (JDict [], r')
          | _ => members fuel' [] r
          end
      | String c r =>
          if Ascii.eqb c Csv.dquote then
            match chars EmptyString r with
            | Some (str, r') => Some (JStr str, r')
            | None => None
            end
          else
            match number (String c r) with
            | Some (z, r') => Some (JInt z, r')
            | None => None
            end
      | EmptyString => None
      end
  end
with items (fuel : nat) (acc : list json) (s : string)
  : option (json * string) :=
  match fuel with
  | O => None
  | S fuel' =>
      match value fuel' s with
      | Some (v, r) =>
          match skip_ws r with
          | String "," r' => items fuel' (acc ++ [v]) r'
          | String "]" r' => Some (JList (acc ++ [v]), r')
          | _ => None
          end
      | None => None
      end
  end
with members (fuel : nat) (acc : list (string * json)) (s : string)
  : option (json * string) :=
  match fuel with
  | O => None
  | S fuel' =>
      match skip_ws s with
      | String c r =>
          if Ascii.eqb c Csv.dquote then
            match chars EmptyString r with
            | Some (key, r1) =>
                match skip_ws r1 with
                | String ":" r2 =>
                    match value fuel' r2 with
                    | Some (v, r3) =>
                        match skip_ws r3 with
                        | String "," r4 => members fuel' (acc ++ [(key, v)]) r4
                        | String "}" r4 => Some (JDict (acc ++ [(key, v)]), r4)
                        | _ => None
                        end
                    | None => None
                    end
                | _ => None
                end
            | None => None
            end
          else None
      | EmptyString => None
      end
  end.

Definition loads (s : string) : result json :=
  match value (2 * String.length s + 2) s with
  | Some (v, r) =>
      match skip_ws r with
      | EmptyString => Ok v
      | _ => Raise (mk_exn JSONDecodeError "Extra data")
      end
  | None => Raise (mk_exn JSONDecodeError "Expecting value")
  end.

(** A canned network. *)
Definition get (url : string) (headers : option json) : result response :=
  if String.eqb url "http://api.test/users" then
    Ok (mk_response 200 (dq "[{'id':1,'name':'ann'},{'id':2,'mail':'b@x'}]"))
  else if String.eqb url "http://api.test/user/1" then
    Ok (mk_response 200 (dq "{'id':1,'name':'ann'}"))
  else if String.eqb url "http://api.test/count" then
    Ok (mk_response 200 "42")
  else if String.eqb url "http://api.test/choices" then
    Ok (mk_response 300 (dq "[{'id':1}]"))
  else if String.eqb url "http://api.test/missing" then
    Ok (mk_response 404 (dq "{'detail':'not found'}"))
  else if String.eqb url "http://api.test/page" then
    Ok (mk_response 200 "<html></html>")
  else Raise (mk_exn RequestException "connection refused").

Definition unsupported {A} (what : string) : result A :=
  Raise (mk_exn NotImplementedError what).

Definition libs : Libs := {|
  requests_get := get;
  requests_post := fun url headers _ => get url headers;
  json_loads := loads;
  str_other := fun _ => "?";
  encode_utf8 := Ok;
  decode_utf8 := Ok;
  encode_latin1 := Ok;
  DataFrame_of_list := fun _ => unsupported "DataFrame";
  json_normalize := fun _ => unsupported "json_normalize";
  read_excel := fun _ => unsupported "read_excel";
  to_excel := fun _ => Ok "xlsx";
  docx_save := fun _ => Ok "docx";
  pdf_output := fun _ => Ok "pdf";
  open_read := fun _ => Raise (mk_exn OSError "No such file or directory")
|}.

End Ref.

(** ** Inputs for concrete runs *)

Definition users_response : response :=
  mk_response 200 (Ref.dq "[{'id':1,'name':'ann'},{'id':2,'mail':'b@x'}]").

Definition users_records : list (list (string * json)) :=
  [ [("id", JInt 1); ("name", JStr "ann")];
    [("id", JInt 2); ("mail", JStr "b@x")] ].

Definition user_record : list (string * json) :=
  [("id", JInt 1); ("name", JStr "ann")].

Definition two_lines : UploadedFile :=
  mk_upload "rows.json"
    (Ref.dq "{'a':1,'b':'x'}" ++ Csv.str1 Csv.LF
     ++ Ref.dq "{'a':2}" ++ Csv.str1 Csv.LF)%string.

(** A fetch from an address that does not answer, and nothing uploaded. *)
Definition no_data_inputs : inputs :=
  mk_inputs "http://down.test/" "GET" "{}" "{}" true None EmptyString.

Definition one_row_session : session :=
  mk_session (mk_df ["a"] [[Val (JInt 1)]]) [] 0.



(* ================================================================== *)
(** ** What a branch of the page leaves behind *)
(* ================================================================== *)

Section Outcomes.

Context {L : Libs}.

(** The value an input field stands for: what [json.loads] makes of it,
    [None] when it refuses. *)
Definition loads_or_None (input : string) : option json :=
  match json_loads input with
  | Ok v => Some v
  | Raise _ => None
  end.

(** The end of a reading branch: the frame read becomes the current one
    and is shown; an exception is reported and the frame stays. *)
Definition shown_or_reported (what : string) (s : session) (pos : nat)
  (r : result DataFrame) : result unit * session :=
  match r with
  | Ok d => (Ok tt, mk_session d (ui s ++ [Dataframe d]) pos)
  | Raise e =>
      (Ok tt, mk_session (df s) (ui s ++ [Error (what ++ exn_msg e)]) pos)
  end.

(** The second attempt is made for a [JSONDecodeError] of the first. *)
Definition with_fallback (first second : result DataFrame)
  : result DataFrame :=
  match first with
  | Ok d => Ok d
  | Raise e => if is_JSONDecodeError e then second else Raise e
  end.

(** The download buttons of the export section, for the bytes of the four
    encoders. *)
Definition export_controls (csv_data excel_data word_data pdf_data : string)
  : list event :=
  [ Header "Export Data"; Columns 4;
    DownloadButton "Download CSV" csv_data "data.csv" "text/csv";
    DownloadButton "Download Excel" excel_data "data.xlsx"
      "application/vnd.ms-excel";
    DownloadButton "Download Word" word_data "data.docx"
      "application/vnd.openxmlformats-officedocument.wordprocessingml.document";
    DownloadButton "Download PDF" pdf_data "data.pdf" "application/pdf" ].

(** The headings of the fetch tab. *)
Definition tab1_headings : list event :=
  [ Header "Fetch Data from API"; Subheader "Headers (Optional)";
    Subheader "JSON Body (for POST)" ].

(** An exception of one of the four encoders on a frame. *)
Definition encoder_raises (d : DataFrame) (e : exn) : Prop :=
  export_to_csv d = Raise e \/ export_to_excel d = Raise e \/
  export_to_word d = Raise e \/ export_to_pdf d = Raise e.

End Outcomes.

(* ================================================================== *)
(** ** sm-1.py: the links of a page

       links = [a['href'] for a in soup.find_all('a', href=True)]

    on the tree BeautifulSoup has parsed. *)
(* ================================================================== *)

Module Bs4.

#[local] Unset Elimination Schemes.
Inductive node : Type :=
| Tag (name : string) (attrs : list (string * string)) (contents : list node)
| NavigableString (text : string).
#[local] Set Elimination Schemes.

Fixpoint attr (key : string) (attrs : list (string * string))
  : option string :=
  match attrs with
  | [] => None
  | (k, v) :: rest => if String.eqb key k then Some v else attr key rest
  end.

(** [tag[key]]; [None] stands for the KeyError of a tag without the
    attribute. *)
Definition getitem (n : node) (key : string) : option string :=
  match n with
  | Tag _ attrs _ => attr key attrs
  | NavigableString _ => None
  end.

(** [tag.descendants]: the nodes below a tag, in document order. *)
Fixpoint descendants (n : node) : list node :=
  match n with
  | Tag _ _ contents =>
      (fix below (l : list node) : list node :=
         match l with
         | [] => []
         | c :: l' => c :: descendants c ++ below l'
         end) contents
  | NavigableString _ => []
  end.

(** The filter of [find_all(name, key=True)]: a tag of that name that has
    the attribute. *)
Definition matches (name key : string) (n : node) : bool :=
  match n with
  | Tag nm attrs _ =>
      String.eqb nm name &&
      match attr key attrs with Some _ => true | None => false end
  | NavigableString _ => false
  end.

Definition find_all (name key : string) (soup : node) : list node :=
  filter (matches name key) (descendants soup).

(** The list comprehension: it stops with the first KeyError. *)
Fixpoint hrefs (tags : list node) : option (list string) :=
  match tags with
  | [] => Some []
  | a :: rest =>
      match getitem a "href", hrefs rest with
      | Some h, Some hs => Some (h :: hs)
      | _, _ => None
      end
  end.

Definition links (soup : node) : option (list string) :=
  hrefs (find_all "a" "href" soup).

End Bs4.

(* ================================================================== *)
(** ** A second instance, with a record without fields on the network
       and a PDF writer that keeps the texts of the page, to be encoded
       in Latin-1 *)
(* ================================================================== *)

Module Ref2.

Definition get (url : string) (headers : option json) : result response :=
  if String.eqb url "http://api.test/blank" then
    Ok (mk_response 200 "[{},{}]")
  else Ref.get url headers.

(** In UTF-8 a character above U+00FF starts with a byte from 196 on. *)
Definition latin1 (s : string) : result string :=
  if Csv.has (fun c => (196 <=? nat_of_ascii c)%nat) s
  then Raise (mk_exn UnicodeEncodeError
                "'latin-1' codec can't encode character")
  else Ok s.

Fixpoint page_text (ops : list Fpdf.op) : string :=
  match ops with
  | [] => EmptyString
  | Fpdf.Cell _ _ txt _ _ _ :: rest => (txt ++ page_text rest)%string
  | Fpdf.Ln _ :: rest => page_text rest
  end.

Definition libs : Libs := {|
  requests_get := get;
  requests_post := fun url headers _ => get url headers;
  json_loads := Ref.loads;
  str_other := fun _ => "?";
  encode_utf8 := Ok;
  decode_utf8 := Ok;
  encode_latin1 := latin1;
  DataFrame_of_list := fun _ => Ref.unsupported "DataFrame";
  json_normalize := fun _ => Ref.unsupported "json_normalize";
  read_excel := fun _ => Ref.unsupported "read_excel";
  to_excel := fun _ => Ok "xlsx";
  docx_save := fun _ => Ok "docx";
  pdf_output := fun pdf => Ok (page_text (Fpdf.ops pdf));
  open_read := fun _ => Raise (mk_exn OSError "No such file or directory")
|}.

End Ref2.

(** ** Further inputs for concrete runs *)

Definition click_without_url : inputs :=
  mk_inputs EmptyString "GET" "{}" "{}" true None EmptyString.

Definition fetch_users : inputs :=
  mk_inputs "http://api.test/users" "GET" "{}" "{bad" true None EmptyString.

Definition idle : inputs :=
  mk_inputs "http://api.test/users" "GET" "{}" "{}" false None EmptyString.

Definition small_csv : UploadedFile :=
  mk_upload "table.csv"
    ("a,b" ++ Csv.str1 Csv.LF ++ "1,2" ++ Csv.str1 Csv.LF)%string.

Definition sheet : UploadedFile := mk_upload "table.xlsx" "PK".

Definition city_csv : UploadedFile :=
  mk_upload "cities.csv"
    ("city" ++ Csv.str1 Csv.LF ++ "Łódź" ++ Csv.str1 Csv.LF)%string.

Definition upload_cities : inputs :=
  mk_inputs EmptyString "GET" "{}" "{}" false (Some city_csv) EmptyString.

(* ================================================================== *)
(** * Properties *)
(* ================================================================== *)

(** ** Frames built from records *)

Lemma mem_In (k : string) (l : list string) : mem k l = true <-> In k l.
Proof.
  unfold mem. rewrite existsb_exists. split.
  - intros [x [Hx He]]. apply String.eqb_eq in He. now subst.
  - intros H. exists k. split; [assumption | apply String.eqb_refl].
Qed.

Lemma In_add_key (cols : list string) (k x : string) :
  In x (add_key cols k) <-> In x cols \/ x = k.
Proof.
  unfold add_key. destruct (mem k cols) eqn:E.
  - apply mem_In in E. split; [tauto | intros [H | ->]; assumption].
  - rewrite in_app_iff. simpl. intuition auto.
Qed.

Lemma NoDup_add_key (cols : list string) (k : string) :
  NoDup cols -> NoDup (add_key cols k).
Proof.
  intros H. unfold add_key. destruct (mem k cols) eqn:E; [assumption |].
  assert (Hn : ~ In k cols).
  { intros Hin. apply mem_In in Hin. congruence. }
  clear E. induction H as [| y l Hy Hl IH]; simpl.
  - constructor; [intros [] | constructor].
  - constructor.
    + rewrite in_app_iff. simpl. intros [Hin | [-> | []]].
      * contradiction.
      * apply Hn. now left.
    + apply IH. intros Hin. apply Hn. now right.
Qed.

Lemma In_fold_add_key (ks cols : list string) (x : string) :
  In x (fold_left add_key ks cols) <-> In x cols \/ In x ks.
Proof.
  revert cols. induction ks as [| k ks IH]; intros cols; simpl.
  - tauto.
  - rewrite IH, In_add_key. split; intros H; intuition auto.
Qed.

Lemma NoDup_fold_add_key (ks cols : list string) :
  NoDup cols -> NoDup (fold_left add_key ks cols).
Proof.
  revert cols. induction ks as [| k ks IH]; intros cols H; simpl.
  - assumption.
  - apply IH, NoDup_add_key, H.
Qed.

Lemma In_fold_add_keys (recs : list (list (string * json)))
  (cols : list string) (x : string) :
  In x (fold_left add_keys recs cols) <->
  In x cols \/ exists r, In r recs /\ In x (map fst r).
Proof.
  revert cols. induction recs as [| r recs IH]; intros cols; simpl.
  - split; [auto | intros [H | [r [[] _]]]; assumption].
  - rewrite IH. unfold add_keys at 1. rewrite In_fold_add_key. split.
    + intros [[H | H] | [r' [Hr Hx]]]; eauto.
    + intros [H | [r' [[<- | Hr] Hx]]]; eauto.
Qed.

Lemma NoDup_fold_add_keys (recs : list (list (string * json)))
  (cols : list string) :
  NoDup cols -> NoDup (fold_left add_keys recs cols).
Proof.
  revert cols. induction recs as [| r recs IH]; intros cols H; simpl.
  - assumption.
  - apply IH. unfold add_keys. apply NoDup_fold_add_key, H.
Qed.

Lemma In_union_keys (recs : list (list (string * json))) (x : string) :
  In x (union_keys recs) <-> exists r, In r recs /\ In x (map fst r).
Proof.
  unfold union_keys. rewrite In_fold_add_keys. simpl. tauto.
Qed.

Lemma NoDup_union_keys (recs : list (list (string * json))) :
  NoDup (union_keys recs).
Proof. apply NoDup_fold_add_keys. constructor. Qed.

Lemma assoc_None (k : string) (d : list (string * json)) :
  assoc k d = None <-> ~ In k (map fst d).
Proof.
  induction d as [| [k' v] d IH]; simpl.
  - tauto.
  - destruct (String.eqb_spec k k') as [-> | Hne].
    + split; [discriminate | intros H; exfalso; apply H; now left].
    + rewrite IH. split; intros H; [intros [E | Hin]; [congruence | tauto] |].
      intros Hin. apply H. now right.
Qed.

Lemma as_records_dicts (recs : list (list (string * json))) :
  as_records (map JDict recs) = Some recs.
Proof.
  induction recs as [| r recs IH]; simpl; [reflexivity | now rewrite IH].
Qed.

Lemma from_records_well_formed (recs : list (list (string * json))) :
  well_formed (from_records recs).
Proof.
  split; simpl.
  - apply NoDup_union_keys.
  - apply Forall_forall. intros row Hrow. apply in_map_iff in Hrow.
    destruct Hrow as [r [<- _]]. unfold row_of_record. apply length_map.
Qed.

Lemma from_records_row (recs : list (list (string * json))) (i : nat)
  (r : list (string * json)) :
  nth_error recs i = Some r ->
  nth_error (rows (from_records recs)) i
  = Some (map (cell_of r) (columns (from_records recs))).
Proof.
  intros H. simpl. now rewrite nth_error_map, H.
Qed.

(** ** Strings and results *)

Lemma endswith_refl (s : string) : endswith s s = true.
Proof. destruct s; cbn [endswith]; rewrite String.eqb_refl; reflexivity. Qed.

(** Two suffixes of one string: one of them ends the other. *)
Lemma endswith_comparable (s a b : string) :
  endswith s a = true -> endswith s b = true ->
  endswith a b = true \/ endswith b a = true.
Proof.
  induction s as [| c s IH]; cbn [endswith]; intros Ha Hb.
  - rewrite orb_false_r in Ha, Hb.
    apply String.eqb_eq in Ha, Hb. subst. now left.
  - apply orb_true_iff in Ha, Hb.
    destruct Ha as [Ha | Ha], Hb as [Hb | Hb].
    + apply String.eqb_eq in Ha, Hb. subst. left. apply endswith_refl.
    + apply String.eqb_eq in Ha. subst a. left. cbn [endswith]. rewrite Hb.
      apply orb_true_r.
    + apply String.eqb_eq in Hb. subst b. right. cbn [endswith]. rewrite Ha.
      apply orb_true_r.
    + now apply IH.
Qed.

Lemma endswith_json_only (s : string) :
  endswith s ".json" = true ->
  endswith s ".csv" = false /\ endswith s ".xlsx" = false.
Proof.
  intros H. split.
  - destruct (endswith s ".csv") eqn:E; [| reflexivity].
    destruct (endswith_comparable _ _ _ H E) as [C | C]; discriminate C.
  - destruct (endswith s ".xlsx") eqn:E; [| reflexivity].
    destruct (endswith_comparable _ _ _ H E) as [C | C]; discriminate C.
Qed.

Lemma substring_all (s : string) : substring 0 (String.length s) s = s.
Proof. induction s as [| c s IH]; simpl; [reflexivity | now rewrite IH]. Qed.


(** ** Delimited text: the reader reads back what the writer wrote *)

Module CsvFacts.
Import Csv.

#[local] Arguments Ascii.eqb : simpl never.





Lemma whitespace_plain (c : ascii) : is_whitespace c = true -> plain c = true.
Proof.
  unfold is_whitespace. intros H. apply orb_true_iff in H.
  destruct H as [H | H]; apply Ascii.eqb_eq in H; subst; reflexivity.
Qed.














(** *** The header and the cells *)






End CsvFacts.

Section Properties.

Context {L : Libs}.

(** ** [fetch_api_data] *)

Lemma fetch_api_data_ok (url method : string) (headers json_body : option json)
  (d : DataFrame) (s : session) :
  fetch_api_data_try url method headers json_body = Ok d ->
  fetch_api_data url method headers json_body s = (Ok d, s).
Proof.
  intros H. unfold fetch_api_data, try_except, lift. now rewrite H.
Qed.

Lemma fetch_api_data_raise (url method : string)
  (headers json_body : option json) (e : exn) (s : session) :
  fetch_api_data_try url method headers json_body = Raise e ->
  fetch_api_data url method headers json_body s
  = (Ok DataFrame_empty,
     mk_session (df s) (ui s ++ [Error ("Error fetching API: " ++ exn_msg e)])
                (fpos s)).
Proof.
  intros H. unfold fetch_api_data, try_except, lift. rewrite H. reflexivity.
Qed.

(** C1.  When the request succeeds and the body of the response decodes to
    a list of records, [fetch_api_data] returns, without any message, a
    frame with one row per record, whose columns are exactly the field
    names met in the records (each once), and whose row for a record holds
    under every column the record's value for that field, or the missing
    value when the record has no such field. *)
Theorem fetch_api_data_sequence_of_records :
  forall (url method : string) (headers json_body : option json)
         (resp : response) (recs : list (list (string * json)))
         (s : session),
    send_request url method headers json_body = Ok resp ->
    raise_for_status resp = Ok tt ->
    response_json resp = Ok (JList (map JDict recs)) ->
    exists d : DataFrame,
      fetch_api_data url method headers json_body s = (Ok d, s) /\
      List.length (rows d) = List.length recs /\
      NoDup (columns d) /\
      (forall c, In c (columns d) <->
                 exists r, In r recs /\ In c (map fst r)) /\
      (forall i r, nth_error recs i = Some r ->
         exists row,
           nth_error (rows d) i = Some row /\
           List.length row = List.length (columns d) /\
           forall j c, nth_error (columns d) j = Some c ->
             nth_error row j
             = Some (match assoc c r with Some v => Val v | None => NaN end)).
Proof.
  intros url method headers json_body resp recs s Hsend Hstatus Hjson.
  exists (from_records recs). split; [| split; [| split; [| split]]].
  - apply fetch_api_data_ok. unfold fetch_api_data_try.
    rewrite Hsend. simpl. rewrite Hstatus. simpl. rewrite Hjson. simpl.
    unfold DataFrame_list. now rewrite as_records_dicts.
  - simpl. apply length_map.
  - apply NoDup_union_keys.
  - intros c. apply In_union_keys.
  - intros i r Hr. exists (map (cell_of r) (columns (from_records recs))).
    split; [now apply from_records_row |]. split; [apply length_map |].
    intros j c Hc. rewrite nth_error_map, Hc. reflexivity.
Qed.


(** C4.  After a successful request, a body that decodes to a single
    mapping gives a frame of exactly one row (the fields of the mapping
    are its columns), and a body that decodes to anything else than a
    list or a mapping gives the frame without rows and columns; in both
    cases no message is shown. *)
Theorem fetch_api_data_mapping_or_other_shape :
  forall (url method : string) (headers json_body : option json)
         (resp : response) (data : json) (s : session),
    send_request url method headers json_body = Ok resp ->
    raise_for_status resp = Ok tt ->
    response_json resp = Ok data ->
    (forall m, data = JDict m ->
       exists d,
         fetch_api_data url method headers json_body s = (Ok d, s) /\
         List.length (rows d) = 1 /\
         rows d = [map (cell_of m) (columns d)] /\
         forall c, In c (columns d) <-> In c (map fst m)) /\
    ((forall l, data <> JList l) -> (forall m, data <> JDict m) ->
       fetch_api_data url method headers json_body s = (Ok (mk_df [] []), s)).
Proof.
  intros url method headers json_body resp data s Hsend Hstatus Hjson.
  assert (Htry : fetch_api_data_try url method headers json_body
                 = match data with
                   | JList l => DataFrame_list l
                   | JDict _ => DataFrame_list [data]
                   | _ => Ok DataFrame_empty
                   end).
  { unfold fetch_api_data_try. rewrite Hsend. simpl. rewrite Hstatus. simpl.
    rewrite Hjson. reflexivity. }
  split.
  - intros m ->. exists (from_records [m]).
    split; [| split; [| split]].
    + apply fetch_api_data_ok. rewrite Htry. reflexivity.
    + reflexivity.
    + reflexivity.
    + intros c. rewrite (In_union_keys [m] c). simpl. split.
      * intros [r [[<- | []] Hc]]. exact Hc.
      * intros Hc. exists m. auto.
  - intros Hl Hm. apply fetch_api_data_ok. rewrite Htry.
    destruct data; try reflexivity.
    + now destruct (Hl l).
    + now destruct (Hm d).
Qed.

(** ** The input fields *)

(** C6.  A text of the headers field or of the body field that
    [json.loads] refuses gives [None] for the headers, respectively for
    the body: nothing is raised and nothing is shown on the page. *)
Theorem malformed_headers_and_body_become_None :
  forall (input : string) (e : exn) (s : session),
    json_loads input = Raise e ->
    headers_of_input input s = (Ok None, s) /\
    json_body_of_input input s = (Ok None, s).
Proof.
  intros input e s H.
  unfold headers_of_input, json_body_of_input, try_except, bind, lift.
  rewrite H. simpl. split; reflexivity.
Qed.

(** ** The export section *)

Lemma export_section_empty (s : session) :
  empty (df s) = true -> export_section s = (Ok tt, s).
Proof.
  intros H. unfold export_section, bind, get_df. rewrite H. reflexivity.
Qed.

(** What is shown before the export section holds no export control. *)

Lemma download_free_ret {A} (a : A) : download_free (ret a).
Proof. intros s r s' H. injection H as <- <-. auto. Qed.

Lemma download_free_lift {A} (x : result A) : download_free (lift x).
Proof. intros s r s' H. injection H as <- <-. auto. Qed.

Lemma download_free_show (e : event) :
  is_download e = false -> download_free (show e).
Proof.
  intros He s r s' H Hs. injection H as <- <-. unfold no_download in *.
  simpl. apply Forall_app. split; [assumption | now constructor].
Qed.

Lemma download_free_get_df : download_free get_df.
Proof. intros s r s' H. injection H as <- <-. auto. Qed.

Lemma download_free_set_df (d : DataFrame) : download_free (set_df d).
Proof. intros s r s' H Hs. injection H as <- <-. exact Hs. Qed.

Lemma download_free_file_read (f : UploadedFile) : download_free (file_read f).
Proof. intros s r s' H Hs. injection H as <- <-. exact Hs. Qed.

Lemma download_free_file_seek (n : nat) : download_free (file_seek n).
Proof. intros s r s' H Hs. injection H as <- <-. exact Hs. Qed.

Lemma download_free_bind {A B} (m : M A) (k : A -> M B) :
  download_free m -> (forall a, download_free (k a)) ->
  download_free (bind m k).
Proof.
  intros Hm Hk s r s' H Hs. unfold bind in H.
  destruct (m s) as [[a | e] s1] eqn:E.
  - eapply Hk; [exact H |]. eapply Hm; eassumption.
  - injection H as <- <-. eapply Hm; eassumption.
Qed.

Lemma download_free_try_except {A} (catches : exn -> bool) (body : M A)
  (handler : exn -> M A) :
  download_free body -> (forall e, download_free (handler e)) ->
  download_free (try_except catches body handler).
Proof.
  intros Hb Hh s r s' H Hs. unfold try_except in H.
  destruct (body s) as [[a | e] s1] eqn:E.
  - injection H as <- <-. eapply Hb; eassumption.
  - destruct (catches e).
    + eapply Hh; [exact H |]. eapply Hb; eassumption.
    + injection H as <- <-. eapply Hb; eassumption.
Qed.

Ltac download_free :=
  repeat first
    [ apply download_free_bind; [| intros ?]
    | apply download_free_try_except; [| intros ?]
    | apply download_free_show; reflexivity
    | apply download_free_ret
    | apply download_free_lift
    | apply download_free_get_df
    | apply download_free_set_df
    | apply download_free_file_read
    | apply download_free_file_seek
    | match goal with
      | |- download_free (if ?b then _ else _) => destruct b
      | |- download_free (match ?x with _ => _ end) => destruct x
      end ].

Lemma download_free_tab1 (i : inputs) : download_free (tab1 i).
Proof.
  unfold tab1, headers_of_input, json_body_of_input, fetch_api_data,
    St.error, St.warning, St.dataframe.
  download_free.
Qed.

Lemma download_free_tab2 (i : inputs) : download_free (tab2 i).
Proof.
  unfold tab2, upload, upload_try, local_json, local_json_try,
    St.error, St.dataframe.
  download_free.
Qed.

Lemma export_section_keeps_df (s : session) (r : result unit) (s' : session) :
  export_section s = (r, s') -> df s' = df s.
Proof.
  unfold export_section, bind, get_df, show, lift, ret.
  destruct (empty (df s)); simpl; [now intros [= <- <-] |].
  destruct (export_to_csv (df s)); simpl; [| now intros [= <- <-]].
  destruct (export_to_excel (df s)); simpl; [| now intros [= <- <-]].
  destruct (export_to_word (df s)); simpl; [| now intros [= <- <-]].
  destruct (export_to_pdf (df s)); simpl; now intros [= <- <-].
Qed.

(** C7.  With a frame of zero rows the export section does nothing: no
    encoder is run (even one that would raise) and no download button is
    put on the page.  So whenever the section does anything at all, the
    frame has at least one row and one column.  And whatever the user
    has entered, a run of the script that ends with a frame of zero rows
    has put no download button on the page. *)
Theorem export_section_guard :
  forall s : session,
    (rows (df s) = [] -> export_section s = (Ok tt, s)) /\
    (export_section s <> (Ok tt, s) ->
       rows (df s) <> [] /\ columns (df s) <> [] /\ empty (df s) = false) /\
    (forall (i : inputs) (r : result unit) (s' : session),
       no_download s ->
       script i s = (r, s') ->
       rows (df s') = [] ->
       no_download s').
Proof.
  intros s.
  assert (Hzero : forall s0, rows (df s0) = [] -> export_section s0 = (Ok tt, s0)).
  { intros s0 H. apply export_section_empty. unfold empty. rewrite H.
    apply orb_true_r. }
  split; [apply Hzero | split].
  - intros H. destruct (empty (df s)) eqn:E.
    + destruct H. now apply export_section_empty.
    + unfold empty in E. apply orb_false_iff in E. destruct E as [Ec Er].
      apply Nat.eqb_neq in Ec, Er. repeat split.
      * intros Hr. apply Er. now rewrite Hr.
      * intros Hc. apply Ec. now rewrite Hc.
  - intros i r s' Hs Hrun Hrows.
    set (before :=
           (show (Title "📊 Data Scraping Tool") ;;
            show (Tabs ["API Fetch"; "Upload File"]) ;;
            set_df DataFrame_empty ;;
            tab1 i ;;
            tab2 i)%M).
    assert (Hbefore : download_free before).
    { unfold before. pose proof (download_free_tab1 i).
      pose proof (download_free_tab2 i). download_free; assumption. }
    assert (Hsplit : script i s
                     = bind before (fun _ => export_section) s).
    { unfold script, before, bind.
      destruct (show (Title _) s) as [[[] | e] s1]; [| reflexivity].
      destruct (show (Tabs _) s1) as [[[] | e] s2]; [| reflexivity].
      destruct (set_df DataFrame_empty s2) as [[[] | e] s3]; [| reflexivity].
      destruct (tab1 i s3) as [[[] | e] s4]; [| reflexivity].
      destruct (tab2 i s4) as [[[] | e] s5]; reflexivity. }
    rewrite Hsplit in Hrun. unfold bind in Hrun.
    destruct (before s) as [[[] | e] s1] eqn:E.
    + assert (Hs1 : no_download s1) by (eapply Hbefore; eassumption).
      pose proof (export_section_keeps_df _ _ _ Hrun) as Hdf.
      rewrite Hdf in Hrows. rewrite (Hzero s1 Hrows) in Hrun.
      injection Hrun as <- <-. exact Hs1.
    + injection Hrun as <- <-. eapply Hbefore; eassumption.
Qed.

(** ** The upload branch *)

(** C10.  For a file whose name ends with none of [.csv], [.xlsx],
    [.json], the upload branch reads nothing: the frame is left as it is,
    it is shown, and no error or warning is put on the page. *)
Theorem upload_other_suffix_keeps_frame :
  forall (f : UploadedFile) (s : session),
    endswith (name f) ".csv" = false ->
    endswith (name f) ".xlsx" = false ->
    endswith (name f) ".json" = false ->
    upload f s
    = (Ok tt, mk_session (df s) (ui s ++ [Dataframe (df s)]) (fpos s)).
Proof.
  intros f s Hcsv Hxlsx Hjson.
  unfold upload, try_except, upload_try, bind.
  rewrite Hcsv, Hxlsx, Hjson. reflexivity.
Qed.


(** ** The PDF encoder *)





(** ** The delimited-text encoder and parser *)




End Properties.

(* ================================================================== *)
(** * The properties on concrete runs *)
(* ================================================================== *)

Lemma fetch_api_data_sequence_of_records_witness :
  exists d : DataFrame,
    fetch_api_data (L := Ref.libs) "http://api.test/users" "GET" None None
      session_init = (Ok d, session_init) /\
    List.length (rows d) = List.length users_records /\
    NoDup (columns d) /\
    (forall c, In c (columns d) <->
               exists r, In r users_records /\ In c (map fst r)) /\
    (forall i r, nth_error users_records i = Some r ->
       exists row,
         nth_error (rows d) i = Some row /\
         List.length row = List.length (columns d) /\
         forall j c, nth_error (columns d) j = Some c ->
           nth_error row j
           = Some (match assoc c r with Some v => Val v | None => NaN end)).
Proof.
  apply (fetch_api_data_sequence_of_records (L := Ref.libs)
           "http://api.test/users" "GET" None None users_response
           users_records session_init);
    reflexivity.
Defined.



Lemma fetch_api_data_mapping_or_other_shape_witness :
  (exists d,
     fetch_api_data (L := Ref.libs) "http://api.test/user/1" "GET" None None
       session_init = (Ok d, session_init) /\
     List.length (rows d) = 1 /\
     rows d = [map (cell_of user_record) (columns d)] /\
     forall c, In c (columns d) <-> In c (map fst user_record)) /\
  fetch_api_data (L := Ref.libs) "http://api.test/count" "GET" None None
    session_init = (Ok (mk_df [] []), session_init).
Proof.
  split.
  - apply (proj1 (fetch_api_data_mapping_or_other_shape (L := Ref.libs)
                    "http://api.test/user/1" "GET" None None
                    (mk_response 200 (Ref.dq "{'id':1,'name':'ann'}"))
                    (JDict user_record) session_init
                    eq_refl eq_refl eq_refl)).
    reflexivity.
  - apply (proj2 (fetch_api_data_mapping_or_other_shape (L := Ref.libs)
                    "http://api.test/count" "GET" None None
                    (mk_response 200 "42") (JInt 42) session_init
                    eq_refl eq_refl eq_refl)).
    + intros l H. discriminate H.
    + intros m H. discriminate H.
Defined.

Lemma malformed_headers_and_body_become_None_witness :
  headers_of_input (L := Ref.libs) "{bad" session_init
  = (Ok None, session_init) /\
  json_body_of_input (L := Ref.libs) "{bad" session_init
  = (Ok None, session_init).
Proof.
  apply (malformed_headers_and_body_become_None (L := Ref.libs) "{bad"
           (mk_exn JSONDecodeError "Expecting value") session_init).
  reflexivity.
Defined.

Lemma export_section_guard_witness :
  export_section (L := Ref.libs) session_init = (Ok tt, session_init) /\
  (rows (df one_row_session) <> [] /\ columns (df one_row_session) <> [] /\
   empty (df one_row_session) = false) /\
  no_download
    (snd (script (L := Ref.libs) no_data_inputs session_init)).
Proof.
  split; [| split].
  - apply (proj1 (export_section_guard (L := Ref.libs) session_init)).
    reflexivity.
  - apply (proj1 (proj2 (export_section_guard (L := Ref.libs) one_row_session))).
    intros H. vm_compute in H. discriminate H.
  - apply (proj2 (proj2 (export_section_guard (L := Ref.libs) session_init))
             no_data_inputs
             (fst (script (L := Ref.libs) no_data_inputs session_init))).
    + constructor.
    + vm_compute. reflexivity.
    + vm_compute. reflexivity.
Defined.

Lemma upload_other_suffix_keeps_frame_witness :
  upload (L := Ref.libs) (mk_upload "DATA.CSV" "a,b") one_row_session
  = (Ok tt,
     mk_session (df one_row_session) [Dataframe (df one_row_session)] 0).
Proof.
  apply (upload_other_suffix_keeps_frame (L := Ref.libs)
           (mk_upload "DATA.CSV" "a,b") one_row_session);
    reflexivity.
Defined.




(** The other conditions of the round trip, on the smallest frames that
    break them. *)
Example csv_empty_column_name_renamed :
  read_csv (L := Ref.libs) (to_csv (L := Ref.libs) (mk_df [EmptyString; "b"] [[Val (JInt 1); Val (JInt 2)]]))
  = Ok (mk_df ["Unnamed: 0"; "b"] [[Val (JStr "1"); Val (JStr "2")]]).
Proof. vm_compute. reflexivity. Qed.

Example csv_carriage_return_splits_row :
  read_csv (L := Ref.libs)
    (to_csv (L := Ref.libs)
       (mk_df ["a"; "b"]
          [[Val (JStr ("x" ++ Csv.str1 Csv.CR ++ "y")); Val (JInt 2)]]))
  = Ok (mk_df ["a"; "b"] [[Val (JStr "x"); NaN]; [Val (JStr "y"); Val (JStr "2")]]).
Proof. vm_compute. reflexivity. Qed.

Example csv_blank_cell_row_skipped :
  read_csv (L := Ref.libs)
    (to_csv (L := Ref.libs) (mk_df ["a"] [[Val (JStr " ")]; [Val (JStr "x")]]))
  = Ok (mk_df ["a"] [[Val (JStr "x")]]).
Proof. vm_compute. reflexivity. Qed.

(* ================================================================== *)
(** * Further properties of the script *)
(* ================================================================== *)

Section MoreProperties.

Context {L : Libs}.

(** ** The fetch tab *)

Lemma headers_of_input_value (input : string) (s : session) :
  headers_of_input input s = (Ok (loads_or_None input), s).
Proof.
  unfold headers_of_input, loads_or_None, try_except, bind, lift, ret.
  destruct (json_loads input); reflexivity.
Qed.

Lemma json_body_of_input_value (input : string) (s : session) :
  json_body_of_input input s = (Ok (loads_or_None input), s).
Proof.
  unfold json_body_of_input, loads_or_None, try_except, bind, lift, ret.
  destruct (json_loads input); reflexivity.
Qed.

Lemma tab1_unfold (i : inputs) (s : session) :
  tab1 i s
  = (if fetch_clicked i then
       if nonempty (url i) then
         (d <- fetch_api_data (url i) (method i)
                 (loads_or_None (headers_input i))
                 (loads_or_None (json_input i)) ;;
          set_df d ;;
          St.dataframe d)%M
       else St.warning "Please enter an API URL."
     else ret tt)
      (mk_session (df s) (ui s ++ tab1_headings) (fpos s)).
Proof.
  unfold tab1, bind at 1 2 3 4 5. unfold show at 1. cbn [fst snd].
  unfold show at 1. cbn [df ui fpos]. rewrite headers_of_input_value.
  unfold show at 1. cbn [df ui fpos]. rewrite json_body_of_input_value.
  unfold tab1_headings. rewrite <- !app_assoc. reflexivity.
Qed.

Lemma tab1_returns (i : inputs) (s : session) :
  exists s', tab1 i s = (Ok tt, s').
Proof.
  rewrite tab1_unfold. destruct (fetch_clicked i); [| eexists; reflexivity].
  destruct (nonempty (url i)); [| eexists; reflexivity].
  unfold bind, fetch_api_data, try_except, lift.
  destruct (fetch_api_data_try _ _ _ _); eexists; reflexivity.
Qed.

(** X1.  Without a click on the button, or with a click but no URL, the
    fetch tab sends no request (whatever the network would answer) and
    leaves the frame as it is; a click without a URL shows the warning. *)
Theorem tab1_without_request :
  forall (i : inputs) (s : session),
    fetch_clicked i = false \/ url i = EmptyString ->
    tab1 i s
    = (Ok tt,
       mk_session (df s)
         (ui s ++ tab1_headings
          ++ (if fetch_clicked i
              then [Warning "Please enter an API URL."]
              else []))
         (fpos s)).
Proof.
  intros i s H. rewrite tab1_unfold.
  destruct (fetch_clicked i).
  - destruct H as [H | H]; [discriminate H |]. rewrite H. cbn [nonempty].
    unfold St.warning, show. cbn [df ui fpos]. now rewrite <- app_assoc.
  - unfold ret. now rewrite app_nil_r.
Qed.

(** X2.  With a click and a URL, the fetch tab sends the request with
    the values the two input fields stand for ([None] for a field that
    is not JSON), makes the frame returned the current one and shows it.
    When the fetch fails, the error is shown, the current frame is
    replaced by the empty one, and the empty table is shown. *)
Theorem tab1_fetch_replaces_frame :
  forall (i : inputs) (s : session),
    fetch_clicked i = true ->
    url i <> EmptyString ->
    tab1 i s
    = match fetch_api_data_try (url i) (method i)
              (loads_or_None (headers_input i))
              (loads_or_None (json_input i)) with
      | Ok d =>
          (Ok tt,
           mk_session d (ui s ++ tab1_headings ++ [Dataframe d]) (fpos s))
      | Raise e =>
          (Ok tt,
           mk_session DataFrame_empty
             (ui s ++ tab1_headings
              ++ [Error ("Error fetching API: " ++ exn_msg e);
                  Dataframe DataFrame_empty])
             (fpos s))
      end.
Proof.
  intros i s Hclick Hurl. rewrite tab1_unfold, Hclick.
  destruct (url i) as [| c u] eqn:E; [now destruct Hurl |]. cbn [nonempty].
  unfold bind at 1.
  destruct (fetch_api_data_try _ _ _ _) as [d | e] eqn:Htry.
  - rewrite (fetch_api_data_ok _ _ _ _ d _ Htry).
    unfold bind, set_df, St.dataframe, show. cbn [df ui fpos].
    now rewrite <- app_assoc.
  - rewrite (fetch_api_data_raise _ _ _ _ e _ Htry).
    unfold bind, set_df, St.dataframe, show. cbn [df ui fpos].
    now rewrite <- !app_assoc.
Qed.

(** ** The upload tab *)

Lemma endswith_xlsx_not_csv (s : string) :
  endswith s ".xlsx" = true -> endswith s ".csv" = false.
Proof.
  intros H. destruct (endswith s ".csv") eqn:E; [| reflexivity].
  destruct (endswith_comparable _ _ _ H E) as [C | C]; discriminate C.
Qed.

Lemma file_read_all (f : UploadedFile) (s : session) :
  fpos s = 0 ->
  file_read f s
  = (Ok (data f), mk_session (df s) (ui s) (String.length (data f))).
Proof.
  intros H. unfold file_read. rewrite H, Nat.sub_0_r, substring_all.
  reflexivity.
Qed.

Lemma upload_try_unfold (branch : M unit) (s : session) :
  (branch ;; d <- get_df ;; St.dataframe d)%M s
  = match branch s with
    | (Ok _, s') =>
        (Ok tt, mk_session (df s') (ui s' ++ [Dataframe (df s')]) (fpos s'))
    | (Raise e, s') => (Raise e, s')
    end.
Proof.
  unfold bind. destruct (branch s) as [[[] | e] s']; reflexivity.
Qed.

(** X3.  A file named [*.csv] or [*.xlsx] is read by the reader of its
    suffix, from its first byte.  The frame read becomes the current one
    and is shown; when the reader raises, the exception is shown as an
    error and the current frame stays. *)
Theorem upload_csv_or_xlsx :
  forall (f : UploadedFile) (s : session),
    fpos s = 0 ->
    (endswith (name f) ".csv" = true ->
     upload f s
     = shown_or_reported "Error reading uploaded file: " s
         (String.length (data f)) (read_csv (data f))) /\
    (endswith (name f) ".xlsx" = true ->
     upload f s
     = shown_or_reported "Error reading uploaded file: " s
         (String.length (data f)) (read_excel (data f))).
Proof.
  intros f s Hpos. split; intros Hname.
  - unfold upload, try_except, upload_try. rewrite Hname, upload_try_unfold.
    unfold bind at 1. rewrite file_read_all by assumption.
    unfold bind, lift, set_df. destruct (read_csv (data f)); reflexivity.
  - unfold upload, try_except, upload_try.
    rewrite (endswith_xlsx_not_csv _ Hname), Hname, upload_try_unfold.
    unfold bind at 1. rewrite file_read_all by assumption.
    unfold bind, lift, set_df. destruct (read_excel (data f)); reflexivity.
Qed.

(** X4.  A file named [*.json] is decoded and read as one JSON document;
    the line-delimited reader is tried, on the whole file again, exactly
    when that first attempt raises a JSONDecodeError.  Any other
    exception of the first attempt, and any exception of the second, is
    shown as an error and the current frame stays. *)
Theorem upload_json_fallback_on_JSONDecodeError_only :
  forall (f : UploadedFile) (s : session),
    endswith (name f) ".json" = true ->
    fpos s = 0 ->
    upload f s
    = shown_or_reported "Error reading uploaded file: " s
        (String.length (data f))
        (json_str <- decode_utf8 (data f) ;;
         with_fallback (v <- json_loads json_str ;; json_normalize v)
                       (read_json_lines (data f))).
Proof.
  intros f s Hname Hpos.
  destruct (endswith_json_only _ Hname) as [Hcsv Hxlsx].
  unfold upload, try_except at 1, upload_try.
  rewrite Hcsv, Hxlsx, Hname, upload_try_unfold.
  unfold bind at 1. rewrite file_read_all by assumption.
  unfold bind at 1, lift at 1.
  destruct (decode_utf8 (data f)) as [json_str | e]; [| reflexivity].
  cbn [rbind]. unfold try_except, bind, lift, set_df, file_seek, file_read.
  cbn [df ui fpos]. rewrite Nat.sub_0_r, substring_all.
  unfold with_fallback.
  destruct (json_loads json_str) as [v | e]; cbn [rbind].
  - destruct (json_normalize v) as [d | e]; [reflexivity |].
    destruct (is_JSONDecodeError e); [| reflexivity].
    destruct (read_json_lines (data f)); reflexivity.
  - destruct (is_JSONDecodeError e); [| reflexivity].
    destruct (read_json_lines (data f)); reflexivity.
Qed.

(** X5.  Whatever the file, the upload branch raises nothing: it ends
    either with an error message and the frame it started with, or with
    the table of the (possibly new) current frame. *)
Theorem upload_reports_or_shows :
  forall (f : UploadedFile) (s : session),
    exists s',
      upload f s = (Ok tt, s') /\
      ((exists msg, ui s' = ui s ++ [Error msg] /\ df s' = df s) \/
       ui s' = ui s ++ [Dataframe (df s')]).
Proof.
  intros f s. unfold upload, try_except at 1, upload_try.
  rewrite upload_try_unfold.
  destruct (endswith (name f) ".csv").
  { unfold bind, file_read, lift, set_df.
    destruct (read_csv _); eexists; (split; [reflexivity |]); cbn [df ui];
      [right | left; eexists; split]; reflexivity. }
  destruct (endswith (name f) ".xlsx").
  { unfold bind, file_read, lift, set_df.
    destruct (read_excel _); eexists; (split; [reflexivity |]); cbn [df ui];
      [right | left; eexists; split]; reflexivity. }
  destruct (endswith (name f) ".json").
  { unfold bind at 1, file_read at 1. unfold bind at 1, lift at 1.
    destruct (decode_utf8 _) as [json_str | e];
      [| eexists; (split; [reflexivity |]); left; eexists; split; reflexivity].
    unfold try_except, bind, lift, set_df, file_seek, file_read.
    cbn [df ui fpos].
    destruct (json_loads json_str) as [v | e].
    - destruct (json_normalize v) as [d | e].
      + eexists; (split; [reflexivity |]); right; reflexivity.
      + destruct (is_JSONDecodeError e).
        * destruct (read_json_lines _); eexists; (split; [reflexivity |]);
            cbn [df ui]; [right | left; eexists; split]; reflexivity.
        * eexists; (split; [reflexivity |]); left; eexists; split; reflexivity.
    - destruct (is_JSONDecodeError e).
      + destruct (read_json_lines _); eexists; (split; [reflexivity |]);
          cbn [df ui]; [right | left; eexists; split]; reflexivity.
      + eexists; (split; [reflexivity |]); left; eexists; split; reflexivity. }
  eexists. split; [reflexivity |]. right. reflexivity.
Qed.

(** X6.  The local-path branch reads the file at the path as one JSON
    document and tries the line-delimited reader, on the same path,
    exactly when that raises a JSONDecodeError.  It raises nothing: a
    file that cannot be opened or read is shown as an error and the
    current frame stays. *)
Theorem local_json_fallback_on_JSONDecodeError_only :
  forall (path : string) (s : session),
    local_json path s
    = shown_or_reported "Error reading JSON file: " s (fpos s)
        (with_fallback
           (bytes <- open_read path ;;
            json_str <- decode_utf8 bytes ;;
            v <- json_loads json_str ;;
            json_normalize v)
           (bytes <- open_read path ;; read_json_lines bytes)).
Proof.
  intros path s.
  unfold local_json, try_except at 1, local_json_try.
  rewrite upload_try_unfold.
  unfold try_except, bind, lift, set_df, with_fallback.
  destruct (open_read path) as [bytes | e] eqn:Hopen; cbn [rbind].
  - destruct (decode_utf8 bytes) as [json_str | e]; cbn [rbind].
    + destruct (json_loads json_str) as [v | e]; cbn [rbind].
      * destruct (json_normalize v) as [d | e]; [reflexivity |].
        destruct (is_JSONDecodeError e); [| reflexivity].
        destruct (read_json_lines bytes); reflexivity.
      * destruct (is_JSONDecodeError e); [| reflexivity].
        destruct (read_json_lines bytes); reflexivity.
    + destruct (is_JSONDecodeError e); [| reflexivity].
      destruct (read_json_lines bytes); reflexivity.
  - destruct (is_JSONDecodeError e); reflexivity.
Qed.

Lemma upload_returns (f : UploadedFile) (s : session) :
  exists s', upload f s = (Ok tt, s').
Proof.
  unfold upload, try_except at 1, upload_try. rewrite upload_try_unfold.
  match goal with
  | |- context [match ?b s with _ => _ end] => destruct (b s) as [[[] | e] s1]
  end; eexists; reflexivity.
Qed.

Lemma local_json_returns (path : string) (s : session) :
  exists s', local_json path s = (Ok tt, s').
Proof.
  unfold local_json, try_except at 1, local_json_try.
  rewrite upload_try_unfold.
  match goal with
  | |- context [match ?b s with _ => _ end] => destruct (b s) as [[[] | e] s1]
  end; eexists; reflexivity.
Qed.

Lemma tab2_returns (i : inputs) (s : session) :
  exists s', tab2 i s = (Ok tt, s').
Proof.
  unfold tab2, bind, show.
  destruct (uploaded_file i) as [f |].
  - apply upload_returns.
  - destruct (nonempty (json_path i)); [| eexists; reflexivity].
    apply local_json_returns.
Qed.

(** ** The export section and the whole run *)

Lemma export_section_raise_inv (s : session) (e : exn) (s' : session) :
  export_section s = (Raise e, s') ->
  empty (df s) = false /\ encoder_raises (df s) e /\ df s' = df s.
Proof.
  unfold export_section, encoder_raises, bind, get_df, show, lift, ret.
  destruct (empty (df s)); cbn [negb]; [discriminate |].
  cbn [df ui fpos].
  destruct (export_to_csv (df s)) eqn:E1;
    [| intros [= <- <-]; repeat split; tauto].
  destruct (export_to_excel (df s)) eqn:E2;
    [| intros [= <- <-]; repeat split; tauto].
  destruct (export_to_word (df s)) eqn:E3;
    [| intros [= <- <-]; repeat split; tauto].
  destruct (export_to_pdf (df s)) eqn:E4;
    [discriminate | intros [= <- <-]; repeat split; tauto].
Qed.

(** X7.  For a frame that is not empty, the export section ends without
    an exception exactly when all four encoders return; it has then put
    the heading and four download buttons on the page, in the order CSV,
    Excel, Word, PDF, each with the bytes of its encoder, its file name
    and its MIME type.  An exception of the section is always the
    exception of one of the encoders: the section catches none of them
    and raises nothing of its own. *)
Theorem export_section_outcome :
  forall (s : session) (r : result unit) (s' : session),
    empty (df s) = false ->
    export_section s = (r, s') ->
    match r with
    | Ok _ =>
        exists csv_data excel_data word_data pdf_data,
          export_to_csv (df s) = Ok csv_data /\
          export_to_excel (df s) = Ok excel_data /\
          export_to_word (df s) = Ok word_data /\
          export_to_pdf (df s) = Ok pdf_data /\
          s' = mk_session (df s)
                 (ui s ++ export_controls csv_data excel_data word_data pdf_data)
                 (fpos s)
    | Raise e => encoder_raises (df s) e /\ df s' = df s
    end.
Proof.
  intros s r s' Hne Hrun. destruct r as [[] | e].
  - revert Hrun.
    unfold export_section, bind, get_df, show, lift, ret. rewrite Hne.
    cbn [negb df ui fpos].
    destruct (export_to_csv (df s)) as [c |]; [| discriminate].
    destruct (export_to_excel (df s)) as [x |]; [| discriminate].
    destruct (export_to_word (df s)) as [w |]; [| discriminate].
    destruct (export_to_pdf (df s)) as [p |]; [| discriminate].
    intros [= <-]. exists c, x, w, p. repeat split.
    unfold export_controls. rewrite <- !app_assoc. reflexivity.
  - apply export_section_raise_inv in Hrun. tauto.
Qed.

Lemma script_unfold (i : inputs) (s : session) :
  exists s1 : session,
    script i s = export_section s1 /\
    (tab1 i ;; tab2 i)%M
      (mk_session DataFrame_empty
         (ui s ++ [Title "📊 Data Scraping Tool";
                   Tabs ["API Fetch"; "Upload File"]])
         (fpos s))
    = (Ok tt, s1).
Proof.
  unfold script, bind, show, set_df. cbn [df ui fpos].
  rewrite <- app_assoc. cbn [app].
  destruct (tab1_returns i
              (mk_session DataFrame_empty
                 (ui s ++ [Title "📊 Data Scraping Tool";
                           Tabs ["API Fetch"; "Upload File"]])
                 (fpos s))) as [s1 H1].
  rewrite H1. destruct (tab2_returns i s1) as [s2 H2]. rewrite H2.
  exists s2. split; reflexivity.
Qed.

(** X8.  The only exceptions that get out of a run of the script are
    those of the export encoders: when a run ends with an exception, the
    current frame is not empty and one of the four encoders raises that
    exception on it.  The two tabs never end a run. *)
Theorem script_raises_only_from_encoders :
  forall (i : inputs) (s : session) (e : exn) (s' : session),
    script i s = (Raise e, s') ->
    empty (df s') = false /\ encoder_raises (df s') e.
Proof.
  intros i s e s' Hrun.
  destruct (script_unfold i s) as [s1 [Hscript _]].
  rewrite Hscript in Hrun. apply export_section_raise_inv in Hrun.
  destruct Hrun as [Hne [Henc Hdf]]. rewrite Hdf. split; assumption.
Qed.

(** X9.  A run without a click on the fetch button, without an uploaded
    file and without a path starts from the empty frame whatever frame
    the session held before: it shows the headings only, ends with the
    empty frame and offers no export. *)
Theorem script_idle_run :
  forall (i : inputs) (s : session),
    fetch_clicked i = false ->
    uploaded_file i = None ->
    json_path i = EmptyString ->
    script i s
    = (Ok tt,
       mk_session DataFrame_empty
         (ui s ++ [Title "📊 Data Scraping Tool";
                   Tabs ["API Fetch"; "Upload File"]]
          ++ tab1_headings ++ [Header "Upload CSV, Excel or JSON"])
         (fpos s)).
Proof.
  intros i s Hclick Hfile Hpath.
  unfold script, bind at 1 2 3 4, show at 1 2, set_df. cbn [df ui fpos].
  rewrite tab1_unfold, Hclick. unfold ret at 1. cbn [df ui fpos].
  unfold bind at 1, tab2. rewrite Hfile, Hpath. cbn [nonempty].
  unfold bind, show, ret. cbn [df ui fpos].
  rewrite export_section_empty by reflexivity.
  rewrite <- !app_assoc. reflexivity.
Qed.

(** ** Records without fields *)

Lemma union_keys_nil (recs : list (list (string * json))) :
  union_keys recs = [] <-> Forall (fun r => r = []) recs.
Proof.
  split.
  - intros H. apply Forall_forall. intros r Hr.
    destruct r as [| [k v] r']; [reflexivity |]. exfalso.
    assert (Hin : In k (union_keys recs)).
    { apply In_union_keys. exists ((k, v) :: r'). split; [assumption |].
      now left. }
    rewrite H in Hin. destruct Hin.
  - intros H. destruct (union_keys recs) as [| c cols] eqn:E; [reflexivity |].
    assert (Hin : In c (union_keys recs)) by (rewrite E; now left).
    apply In_union_keys in Hin. destruct Hin as [r [Hr Hc]].
    rewrite Forall_forall in H. rewrite (H r Hr) in Hc. destruct Hc.
Qed.

(** X10.  A fetched list of records gives a frame that counts as empty
    ([df.empty], the test of the export section) exactly when no record
    has any field -- also when it has rows: for the body [[{}, {}]] the
    frame has two rows and no export is offered. *)
Theorem fetch_api_data_records_without_fields :
  forall (url method : string) (headers json_body : option json)
         (resp : response) (recs : list (list (string * json)))
         (s : session),
    send_request url method headers json_body = Ok resp ->
    raise_for_status resp = Ok tt ->
    response_json resp = Ok (JList (map JDict recs)) ->
    exists d : DataFrame,
      fetch_api_data url method headers json_body s = (Ok d, s) /\
      List.length (rows d) = List.length recs /\
      (empty d = true <-> Forall (fun r => r = []) recs).
Proof.
  intros url method headers json_body resp recs s Hsend Hstatus Hjson.
  exists (from_records recs). split; [| split].
  - apply fetch_api_data_ok. unfold fetch_api_data_try.
    rewrite Hsend. cbn [rbind]. rewrite Hstatus. cbn [rbind].
    rewrite Hjson. cbn [rbind]. unfold DataFrame_list.
    now rewrite as_records_dicts.
  - simpl. apply length_map.
  - unfold empty. cbn [columns rows from_records]. rewrite length_map.
    rewrite orb_true_iff, !Nat.eqb_eq, !length_zero_iff_nil, union_keys_nil.
    split; [| auto]. intros [H | ->]; [assumption | constructor].
Qed.

(** ** The Word encoder *)





(** ** The width of the PDF grid *)


End MoreProperties.

(** ** The links of a page (sm-1.py) *)

Lemma Forall2_In_l {A B : Type} (R : A -> B -> Prop) (xs : list A)
  (ys : list B) (x : A) :
  Forall2 R xs ys -> In x xs -> exists y, In y ys /\ R x y.
Proof.
  induction 1 as [| x0 y0 xs ys Hxy _ IH]; intros Hin; [destruct Hin |].
  destruct Hin as [-> | Hin].
  - exists y0. split; [now left | assumption].
  - destruct (IH Hin) as [y [Hy Hr]]. exists y. split; [now right | assumption].
Qed.

Lemma Forall2_In_r {A B : Type} (R : A -> B -> Prop) (xs : list A)
  (ys : list B) (y : B) :
  Forall2 R xs ys -> In y ys -> exists x, In x xs /\ R x y.
Proof.
  induction 1 as [| x0 y0 xs ys Hxy _ IH]; intros Hin; [destruct Hin |].
  destruct Hin as [-> | Hin].
  - exists x0. split; [now left | assumption].
  - destruct (IH Hin) as [x [Hx Hr]]. exists x. split; [now right | assumption].
Qed.

Lemma hrefs_matching (tags : list Bs4.node) :
  Forall (fun a => Bs4.matches "a" "href" a = true) tags ->
  exists l,
    Bs4.hrefs tags = Some l /\
    Forall2 (fun a h => Bs4.getitem a "href" = Some h) tags l.
Proof.
  induction 1 as [| a tags Ha _ [l [Hl Hall]]].
  - exists []. split; [reflexivity | constructor].
  - destruct a as [nm attrs cs |]; [| discriminate Ha].
    unfold Bs4.matches in Ha. apply andb_true_iff in Ha.
    destruct Ha as [_ Ha].
    destruct (Bs4.attr "href" attrs) as [h |] eqn:E; [| discriminate Ha].
    exists (h :: l). split.
    + cbn [Bs4.hrefs Bs4.getitem]. rewrite E, Hl. reflexivity.
    + constructor; assumption.
Qed.

(** X13.  On every parsed page the list comprehension of the links ends
    without a KeyError: [find_all] only returns anchors that have an
    [href], so the list holds, in document order, the [href] of each of
    them, and nothing else. *)
Theorem links_never_KeyError :
  forall soup : Bs4.node,
    exists l : list string,
      Bs4.links soup = Some l /\
      Forall2 (fun a h => Bs4.getitem a "href" = Some h)
              (Bs4.find_all "a" "href" soup) l /\
      (forall h, In h l <->
         exists attrs contents,
           In (Bs4.Tag "a" attrs contents) (Bs4.descendants soup) /\
           Bs4.attr "href" attrs = Some h).
Proof.
  intros soup.
  destruct (hrefs_matching (Bs4.find_all "a" "href" soup)) as [l [Hl Hall]].
  { apply Forall_forall. intros a Ha. unfold Bs4.find_all in Ha.
    apply filter_In in Ha. tauto. }
  exists l. split; [exact Hl |]. split; [exact Hall |].
  intros h. split.
  - intros Hh.
    destruct (Forall2_In_r _ _ _ _ Hall Hh) as [a [Ha Hget]].
    unfold Bs4.find_all in Ha. apply filter_In in Ha. destruct Ha as [Hd Hm].
    destruct a as [nm attrs cs |]; [| discriminate Hm].
    unfold Bs4.matches in Hm. apply andb_true_iff in Hm.
    destruct Hm as [Hnm _]. apply String.eqb_eq in Hnm. subst nm.
    exists attrs, cs. split; assumption.
  - intros [attrs [cs [Hd Hattr]]].
    assert (Ha : In (Bs4.Tag "a" attrs cs) (Bs4.find_all "a" "href" soup)).
    { unfold Bs4.find_all. apply filter_In. split; [assumption |].
      unfold Bs4.matches. rewrite Hattr. reflexivity. }
    destruct (Forall2_In_l _ _ _ _ Hall Ha) as [h' [Hh' Hget]].
    cbn [Bs4.getitem] in Hget. rewrite Hattr in Hget.
    injection Hget as <-. exact Hh'.
Qed.

(* ================================================================== *)
(** * The further properties on concrete runs *)
(* ================================================================== *)

Lemma tab1_without_request_witness :
  tab1 (L := Ref.libs) click_without_url session_init
  = (Ok tt,
     mk_session DataFrame_empty
       (tab1_headings ++ [Warning "Please enter an API URL."]) 0).
Proof.
  apply (tab1_without_request (L := Ref.libs) click_without_url session_init).
  right. reflexivity.
Defined.

Lemma tab1_fetch_replaces_frame_witness :
  tab1 (L := Ref.libs) fetch_users one_row_session
  = (Ok tt,
     mk_session (from_records users_records)
       (tab1_headings ++ [Dataframe (from_records users_records)]) 0).
Proof.
  apply (tab1_fetch_replaces_frame (L := Ref.libs) fetch_users
           one_row_session).
  - reflexivity.
  - discriminate.
Defined.

Lemma upload_csv_or_xlsx_witness :
  upload (L := Ref.libs) small_csv session_init
  = (Ok tt,
     mk_session (mk_df ["a"; "b"] [[Val (JStr "1"); Val (JStr "2")]])
       [Dataframe (mk_df ["a"; "b"] [[Val (JStr "1"); Val (JStr "2")]])] 8) /\
  upload (L := Ref.libs) sheet one_row_session
  = (Ok tt,
     mk_session (df one_row_session)
       [Error "Error reading uploaded file: read_excel"] 2).
Proof.
  split.
  - apply (proj1 (upload_csv_or_xlsx (L := Ref.libs) small_csv session_init
                    eq_refl)).
    reflexivity.
  - apply (proj2 (upload_csv_or_xlsx (L := Ref.libs) sheet one_row_session
                    eq_refl)).
    reflexivity.
Defined.

Lemma upload_json_fallback_on_JSONDecodeError_only_witness :
  upload (L := Ref.libs) two_lines session_init
  = shown_or_reported "Error reading uploaded file: " session_init
      (String.length (data two_lines))
      (Ok (from_records [ [("a", JInt 1); ("b", JStr "x")]; [("a", JInt 2)] ])).
Proof.
  apply (upload_json_fallback_on_JSONDecodeError_only (L := Ref.libs)
           two_lines session_init).
  - reflexivity.
  - reflexivity.
Defined.

Lemma export_section_outcome_witness :
  exists csv_data excel_data word_data pdf_data,
    export_to_csv (L := Ref.libs) (df one_row_session) = Ok csv_data /\
    export_to_excel (L := Ref.libs) (df one_row_session) = Ok excel_data /\
    export_to_word (L := Ref.libs) (df one_row_session) = Ok word_data /\
    export_to_pdf (L := Ref.libs) (df one_row_session) = Ok pdf_data /\
    snd (export_section (L := Ref.libs) one_row_session)
    = mk_session (df one_row_session)
        (ui one_row_session
         ++ export_controls csv_data excel_data word_data pdf_data)
        (fpos one_row_session).
Proof.
  apply (export_section_outcome (L := Ref.libs) one_row_session (Ok tt)
           (snd (export_section (L := Ref.libs) one_row_session))).
  - reflexivity.
  - vm_compute. reflexivity.
Defined.

Lemma script_raises_only_from_encoders_witness :
  let s' := snd (script (L := Ref2.libs) upload_cities session_init) in
  empty (df s') = false /\
  encoder_raises (L := Ref2.libs) (df s')
    (mk_exn UnicodeEncodeError "'latin-1' codec can't encode character").
Proof.
  apply (script_raises_only_from_encoders (L := Ref2.libs) upload_cities
           session_init).
  vm_compute. reflexivity.
Defined.

Lemma script_idle_run_witness :
  script (L := Ref.libs) idle one_row_session
  = (Ok tt,
     mk_session DataFrame_empty
       ([Title "📊 Data Scraping Tool"; Tabs ["API Fetch"; "Upload File"]]
        ++ tab1_headings ++ [Header "Upload CSV, Excel or JSON"])
       0).
Proof.
  apply (script_idle_run (L := Ref.libs) idle one_row_session);
    reflexivity.
Defined.

Lemma fetch_api_data_records_without_fields_witness :
  exists d : DataFrame,
    fetch_api_data (L := Ref2.libs) "http://api.test/blank" "GET" None None
      session_init = (Ok d, session_init) /\
    List.length (rows d) = 2 /\
    (empty d = true <->
     Forall (fun r : list (string * json) => r = []) [[]; []]).
Proof.
  apply (fetch_api_data_records_without_fields (L := Ref2.libs)
           "http://api.test/blank" "GET" None None
           (mk_response 200 "[{},{}]") [[]; []] session_init);
    reflexivity.
Defined.

